(** * OrderedCollection: the ordered-collection facade of the Realm SDK

    A shallow embedding of [packages/realm/src/OrderedCollection.ts]:
    the proxy handler that emulates indexed access, the facade's
    methods over the binding's [Results], the notification wrapper, the
    sort-descriptor normalisation and the aggregate dispatch.

    JavaScript numbers used as indices are modelled as [Z] ([None] stands
    for [NaN] where a parse can fail); aggregate numbers as [Q].  Code that
    can throw runs in a state-and-exception monad over an explicit world. *)

From Stdlib Require Import ZArith QArith Lia.
From Stdlib Require Import Ascii String.
From stdpp Require Import base tactics option list list_numbers.
From stdpp Require Import strings pretty countable gmap sorting.

Local Open Scope string_scope.
Local Open Scope Z_scope.

(** ** Errors and completions *)

(** The error classes the file throws ([Error], and those of [./errors]
    and [./assert]). *)
Inductive JsError :=
| Error (message : string)
| AssertionError (message : string)
| TypeAssertionError (expected target : string)
| IllegalConstructorError (type_name : string).

(** A call either returns normally or throws. *)
Inductive Completion (A : Type) :=
| Normal (a : A)
| Throw (e : JsError).
Arguments Normal {A} a.
Arguments Throw {A} e.

(** Code over a mutable state [S] that may throw. *)
Definition M (S A : Type) : Type := S -> Completion A * S.

Definition ret {S A} (a : A) : M S A := fun s => (Normal a, s).

Definition throw {S A} (e : JsError) : M S A := fun s => (Throw e, s).

Definition bind {S A B} (m : M S A) (k : A -> M S B) : M S B :=
  fun s =>
    match m s with
    | (Normal a, s') => k a s'
    | (Throw e, s') => (Throw e, s')
    end.

(** [try { m } catch (err) { h err }] *)
Definition try_catch {S A} (m : M S A) (h : JsError -> M S A) : M S A :=
  fun s =>
    match m s with
    | (Normal a, s') => (Normal a, s')
    | (Throw e, s') => h e s'
    end.

Definition gets {S A} (f : S -> A) : M S A := fun s => (Normal (f s), s).

Definition modify {S} (f : S -> S) : M S unit := fun s => (Normal tt, f s).

Declare Scope js_scope.
Delimit Scope js_scope with js.
Notation "'let*' x ':=' m 'in' k" := (bind m (fun x => k))
  (at level 10, x pattern, m at level 100, k at level 200) : js_scope.

(** ** [Number.parseInt(prop, 10)] and numeric property keys *)

Module ParseInt.

(** The ASCII members of the StrWhiteSpaceChar class. *)
Definition is_whitespace (a : ascii) : bool :=
  let n := nat_of_ascii a in
  ((9 <=? n)%nat && (n <=? 13)%nat) || (n =? 32)%nat.

Definition digit_value (a : ascii) : option Z :=
  let n := Z.of_nat (nat_of_ascii a) in
  if (48 <=? n) && (n <=? 57) then Some (n - 48) else None.

Fixpoint skip_whitespace (s : string) : string :=
  match s with
  | String a rest => if is_whitespace a then skip_whitespace rest else s
  | EmptyString => s
  end.

(** Value of the longest prefix of decimal digits, continuing from [acc]. *)
Fixpoint parse_digits (s : string) (acc : Z) : Z :=
  match s with
  | String a rest =>
      match digit_value a with
      | Some d => parse_digits rest (10 * acc + d)
      | None => acc
      end
  | EmptyString => acc
  end.

(** The digits after the sign; [None] (NaN) when there is no digit. *)
Definition parse_unsigned (s : string) : option Z :=
  match s with
  | String a _ =>
      match digit_value a with
      | Some _ => Some (parse_digits s 0)
      | None => None
      end
  | EmptyString => None
  end.

(** [Number.parseInt(s, 10)]: leading white space is skipped, one sign is
    read, then the longest run of digits; [None] is NaN.  The integer is
    kept exact: the handler only compares it with [0] and with the length,
    and rounding to a double preserves both comparisons. *)
Definition parseInt (s : string) : option Z :=
  match skip_whitespace s with
  | String "-" rest => Z.opp <$> parse_unsigned rest
  | String "+" rest => parse_unsigned rest
  | trimmed => parse_unsigned trimmed
  end.

(** The property key of an integer index: its decimal numeral, as the
    language writes [collection[i]] for a safe integer [i]. *)
Definition index_key (i : Z) : string := pretty i.

End ParseInt.
Export ParseInt.

(** ** Shared data of the facade *)

(** [binding.ColKey], a bigint. *)
Definition ColKey := Z.

Definition DEFAULT_COLUMN_KEY : ColKey := 0.

(** [SortDescriptor = string | [string, boolean]]. *)
Inductive SortDescriptor :=
| DescName (path : string)
| DescPair (path : string) (reverse : bool).

Record CollectionChangeSet := {
  insertions : list Z;
  deletions : list Z;
  newModifications : list Z;
  oldModifications : list Z;
}.

(** [binding.IndexRange], a half-open pair [[start, end]]. *)
Definition IndexRange : Type := Z * Z.

(** The payload the binding hands to a notification callback. *)
Record BindingChangeSet := {
  raw_deletions : list IndexRange;
  raw_insertions : list IndexRange;
  raw_modifications : list IndexRange;
  raw_modificationsNew : list IndexRange;
}.

(** Modelled from the spec: [unwind] of [./ranges], which is not among the
    sources.  Each half-open range is expanded into its individual indices
    and the expansions are concatenated in the order of the input; nothing
    is validated or deduplicated. *)
Definition unwind (ranges : list IndexRange) : list Z :=
  flat_map (fun '(first, last) => seqZ first (last - first)) ranges.

(** Total width of a list of ranges. *)
Definition total_width (ranges : list IndexRange) : Z :=
  foldr (fun '(first, last) acc => (last - first) + acc) 0 ranges.

(** Ranges as the engine emits them: each one half-open with its start no
    later than its end, each one starting no earlier than the previous one
    ends. *)
Fixpoint ascending_from (lower : Z) (ranges : list IndexRange) : Prop :=
  match ranges with
  | [] => True
  | (first, last) :: rest =>
      lower <= first /\ first <= last /\ ascending_from last rest
  end.

Definition ascending_ranges (ranges : list IndexRange) : Prop :=
  match ranges with
  | [] => True
  | (first, last) :: rest => first <= last /\ ascending_from last rest
  end.

(** The four lists of a change set, each unwound on its own. *)
Definition translate (changes : BindingChangeSet) : CollectionChangeSet :=
  {| deletions := unwind (raw_deletions changes);
     insertions := unwind (raw_insertions changes);
     oldModifications := unwind (raw_modifications changes);
     newModifications := unwind (raw_modificationsNew changes) |}.

(** Keys of a property access: strings and symbols. *)
Inductive PropertyKey :=
| PString (s : string)
| PSymbol (description : string).

Global Instance PropertyKey_eq_dec : EqDecision PropertyKey.
Proof. solve_decision. Defined.

Global Instance PropertyKey_countable : Countable PropertyKey.
Proof.
  refine (inj_countable'
    (fun k => match k with PString s => inl s | PSymbol d => inr d end)
    (fun x => match x with inl s => PString s | inr d => PSymbol d end) _).
  by intros [].
Defined.

(** What the binding's aggregates hand back: a plain number, a bigint, a
    [binding.Float], a [binding.Timestamp] (kept as the date its [toDate()]
    gives), a [Date], [undefined], or something else. *)
Inductive AggregateResult :=
| AggUndefined
| AggNumber (q : Q)
| AggBigInt (z : Z)
| AggFloat (value : Q)
| AggTimestamp (date : Z)
| AggDate (date : Z)
| AggOther (description : string).

(** [number | Date | undefined], the results of [min], [max], [sum], [avg]. *)
Inductive AggregateValue :=
| ValUndefined
| ValNumber (q : Q)
| ValDate (date : Z).

Inductive Aggregate := Min | Max | Sum | Average.

(** The three representations a sum can come back in. *)
Inductive NumericRepr := ReprNumber | ReprBigInt | ReprFloat.

Definition zero_of (r : NumericRepr) : AggregateResult :=
  match r with
  | ReprNumber => AggNumber 0
  | ReprBigInt => AggBigInt 0
  | ReprFloat => AggFloat 0
  end.

(** [ClassHelpers]: the property map of an object schema, from property
    name to column key. *)
Record ClassHelpers := {
  properties : gmap string ColKey;
}.

(** Calls into the binding, in the order they are made. *)
Inductive BindingCall :=
| CallSize
| CallGet (index : Z)
| CallSnapshot
| CallIndexOf
| CallIndexOfObj
| CallAggregate (kind : Aggregate) (column : ColKey)
| CallSortByNames (descriptors : list (string * bool)).

(** ** The binding's [Results] and the facade over it *)

Module Facade.

Section Model.

(** Engine-native values, host values and [binding.Obj] handles. *)
Context {Native Host Obj : Type}.

(** [TypeHelpers] of [./types]: the marshalling between host and native
    values; [getInternal] gives the [binding.Obj] of a host value that is
    an instance of [RealmObject]. *)
Class TypeHelpers := {
  toBinding : Host -> Native;
  fromBinding : Native -> Host;
  getInternal : Host -> option Obj;
}.

(** What the native engine computes on the elements of a result set; the
    facade only forwards to it. *)
Record Engine := {
  engine_sort : list (string * bool) -> list Native -> list Native;
  engine_indexOf : list Native -> Native -> Z;
  engine_indexOfObj : list Native -> Obj -> Z;
  engine_aggregate : Aggregate -> ColKey -> list Native -> AggregateResult;
  engine_sum_repr : ColKey -> NumericRepr;
}.

Context {helpers : TypeHelpers} (engine : Engine).

(** Modelled from the spec: [binding.Results], the Backing Collection,
    whose implementation is not among the sources.  A result set is a view
    of the engine's current data: the live table, a sorted view of another
    view, or a snapshot that keeps the elements it was taken with. *)
Inductive View :=
| VTable
| VSorted (parent : View) (descriptors : list (string * bool))
| VSnapshot (frozen : list Native).

Record Results := {
  objectType : string;
  view : View;
}.

(** The engine's current data and the log of calls made into the
    binding. *)
Record World := {
  table : list Native;
  calls : list BindingCall;
}.

Fixpoint view_contents (data : list Native) (v : View) : list Native :=
  match v with
  | VTable => data
  | VSorted parent descriptors =>
      engine_sort engine descriptors (view_contents data parent)
  | VSnapshot frozen => frozen
  end.

Definition contents (r : Results) (w : World) : list Native :=
  view_contents (table w) (view r).

Definition called (c : BindingCall) : M World unit :=
  modify (fun w => {| table := table w; calls := calls w ++ [c] |}).

(** Modelled from the spec: a write to the engine's data made outside the
    facade (the facade has no writing path of its own). *)
Definition write_table (data : list Native) (w : World) : World :=
  {| table := data; calls := calls w |}.

(** Modelled from the spec: [size() -> int]. *)
Definition results_size (r : Results) : M World Z :=
  (let* _ := called CallSize in
   gets (fun w => Z.of_nat (length (contents r w))))%js.

(** Modelled from the spec: [get(i) -> nativeValue]; the engine rejects an
    index outside the result set. *)
Definition results_get (r : Results) (index : Z) : M World Native :=
  (let* _ := called (CallGet index) in
   let* elems := gets (contents r) in
   if index <? 0 then throw (Error "Requested index is out of bounds")
   else match elems !! Z.to_nat index with
        | Some x => ret x
        | None => throw (Error "Requested index is out of bounds")
        end)%js.

(** Modelled from the spec: [snapshot() -> BackingCollection], an
    immutable point-in-time view. *)
Definition results_snapshot (r : Results) : M World Results :=
  (let* _ := called CallSnapshot in
   let* elems := gets (contents r) in
   ret {| objectType := objectType r; view := VSnapshot elems |})%js.

(** Modelled from the spec: [sort(descriptors) -> BackingCollection]. *)
Definition results_sortByNames (r : Results)
    (descriptors : list (string * bool)) : M World Results :=
  (let* _ := called (CallSortByNames descriptors) in
   ret {| objectType := objectType r;
          view := VSorted (view r) descriptors |})%js.

(** Modelled from the spec: [indexOf(nativeValue) -> int | -1]. *)
Definition results_indexOf (r : Results) (x : Native) : M World Z :=
  (let* _ := called CallIndexOf in
   gets (fun w => engine_indexOf engine (contents r w) x))%js.

(** Modelled from the spec: [indexOfByIdentity(ref) -> int | -1]. *)
Definition results_indexOfObj (r : Results) (o : Obj) : M World Z :=
  (let* _ := called CallIndexOfObj in
   gets (fun w => engine_indexOfObj engine (contents r w) o))%js.

(** Modelled from the spec: [min/max/sum/average(columnRef?)]; the absent
    value is returned by min, max and average only, on an empty
    collection, and the sum of an empty collection is 0. *)
Definition results_aggregate (kind : Aggregate) (r : Results)
    (column : ColKey) : M World AggregateResult :=
  (let* _ := called (CallAggregate kind column) in
   let* elems := gets (contents r) in
   ret match elems, kind with
       | [], Sum => zero_of (engine_sum_repr engine column)
       | [], _ => AggUndefined
       | _ :: _, _ => engine_aggregate engine kind column elems
       end)%js.

(** [Realm], as far as the facade uses it. *)
Record Realm := {
  getClassHelpers : string -> ClassHelpers;
}.

(** Values that go through the proxy. *)
Inductive Value :=
| VUndefined
| VHost (h : Host)
| VNumber (n : Z)
| VMember (name : string).

(** A property the target has, own or inherited. *)
Inductive Slot :=
| Method (name : string)
| Getter (name : string)
| Internal (name : string)
| Data (v : Value).

(** The object under the proxy.  [realm], [results], [helpers] and
    [classHelpers] are its internal fields; [slots] is the table of the
    properties [Reflect.has] finds on it. *)
Record OrderedCollection := {
  class_name : string;
  realm : Realm;
  results : Results;
  classHelpers : option ClassHelpers;
  slots : gmap PropertyKey Slot;
}.

Definition with_slots (t : OrderedCollection)
    (m : gmap PropertyKey Slot) : OrderedCollection :=
  {| class_name := class_name t; realm := realm t; results := results t;
     classHelpers := classHelpers t; slots := m |}.

(** The members the class declares, and those it inherits from
    [Collection] and [Object.prototype]. *)
Definition internal_fields : list string :=
  ["realm"; "results"; "helpers"; "classHelpers"].

Definition accessors : list string := ["length"; "type"; "optional"].

Definition methods : list string :=
  ["constructor"; "get"; "set"; "keys"; "values"; "toString";
   "toLocaleString"; "concat"; "join"; "slice"; "indexOf"; "lastIndexOf";
   "every"; "some"; "forEach"; "map"; "filter"; "reduce"; "reduceRight";
   "find"; "findIndex"; "entries"; "includes"; "flatMap"; "flat"; "at";
   "toJSON"; "description"; "isValid"; "isEmpty"; "min"; "max"; "sum";
   "avg"; "filtered"; "sorted"; "snapshot"; "getPropertyColumnKey";
   "addListener"; "removeListener"; "removeAllListeners";
   "hasOwnProperty"; "isPrototypeOf"; "propertyIsEnumerable"; "valueOf"].

Definition declared_slots : list (PropertyKey * Slot) :=
  ((fun n => (PString n, Internal n)) <$> internal_fields)
  ++ ((fun n => (PString n, Getter n)) <$> accessors)
  ++ ((fun n => (PString n, Method n)) <$> methods)
  ++ [(PSymbol "Symbol.iterator", Method "values")].

(** The constructor: refuses a call without arguments, looks the class
    helpers up when the results hold objects. *)
Definition construct (name : string) (args : option (Realm * Results))
    : Completion OrderedCollection :=
  match args with
  | None => Throw (IllegalConstructorError "OrderedCollection")
  | Some (rlm, res) =>
      Normal {| class_name := name;
                realm := rlm;
                results := res;
                classHelpers :=
                  if bool_decide (objectType res <> "")
                  then Some (getClassHelpers rlm (objectType res))
                  else None;
                slots := list_to_map declared_slots |}
  end.

(** [get(index)]; the helpers' [get] is the binding's indexed read. *)
Definition get (this : OrderedCollection) (index : Z) : M World Host :=
  (let* x := results_get (results this) index in
   ret (fromBinding x))%js.

(** [set(index, value)] *)
Definition set (this : OrderedCollection) (index : Z) (value : Value)
    : M World unit :=
  throw (Error ("Assigning into a " ++ class_name this ++ " is not support")).

(** [get length()] *)
Definition length (this : OrderedCollection) : M World Z :=
  results_size (results this).

(** [isEmpty()] *)
Definition isEmpty (this : OrderedCollection) : M World bool :=
  (let* size := results_size (results this) in
   ret (size =? 0))%js.

(** No property of the target has a name that parses as a number: true of
    a target as the constructor leaves it, and kept by every write that goes
    through the proxy. *)
Definition no_index_slots (target : OrderedCollection) : Prop :=
  forall name,
    is_Some (slots target !! PString name) -> parseInt name = None.

(** *** Iteration *)

(** The iterator of [keys()]: the size read once, and a running index. *)
Record KeysIterator := {
  keys_size : Z;
  keys_index : Z;
}.

(** [keys()] *)
Definition keys (this : OrderedCollection) : M World KeysIterator :=
  (let* size := results_size (results this) in
   ret {| keys_size := size; keys_index := 0 |})%js.

(** [next()] of a keys iterator; [None] is [done: true]. *)
Definition keys_next (it : KeysIterator) : option Z * KeysIterator :=
  if keys_index it <? keys_size it
  then (Some (keys_index it),
        {| keys_size := keys_size it; keys_index := keys_index it + 1 |})
  else (None, it).

(** The iterator of [values()]: the snapshot taken at creation and the keys
    iterator it pulls from. *)
Record ValuesIterator := {
  values_snapshot : Results;
  values_keys : KeysIterator;
}.

(** [values()] *)
Definition values (this : OrderedCollection) : M World ValuesIterator :=
  (let* snapshot := results_snapshot (results this) in
   let* ks := keys this in
   ret {| values_snapshot := snapshot; values_keys := ks |})%js.

(** [next()] of a values iterator. *)
Definition values_next (it : ValuesIterator)
    : M World (option Host * ValuesIterator) :=
  let '(k, ks) := keys_next (values_keys it) in
  let it' := {| values_snapshot := values_snapshot it; values_keys := ks |} in
  match k with
  | None => ret (None, it')
  | Some index =>
      (let* x := results_get (values_snapshot it) index in
       ret (Some (fromBinding x), it'))%js
  end.

(** Pulling an iterator until it is done, as [[...iterator]] does.  [None]
    means the fuel ran out before the iterator was done. *)
Fixpoint drain (fuel : nat) (it : ValuesIterator) (w : World)
    : option (Completion (list Host) * World) :=
  match fuel with
  | O => None
  | S fuel' =>
      match values_next it w with
      | (Throw e, w') => Some (Throw e, w')
      | (Normal (None, _), w') => Some (Normal [], w')
      | (Normal (Some h, it'), w') =>
          match drain fuel' it' w' with
          | Some (Normal hs, w'') => Some (Normal (h :: hs), w'')
          | other => other
          end
      end
  end.

(** *** The proxy handler *)

Definition Reflect_has (target : OrderedCollection) (prop : PropertyKey)
    : bool :=
  bool_decide (is_Some (slots target !! prop)).

(** [Reflect.get(target, prop)]: a getter runs on the target. *)
Definition Reflect_get (target : OrderedCollection) (prop : PropertyKey)
    : M World Value :=
  match slots target !! prop with
  | Some (Data v) => ret v
  | Some (Getter "length") =>
      (let* n := length target in ret (VNumber n))%js
  | Some (Getter name) | Some (Method name) | Some (Internal name) =>
      ret (VMember name)
  | None => ret VUndefined
  end.

(** [Reflect.set(target, prop, value, receiver)]: an accessor without a
    setter and a non-writable field refuse the write; anything else
    becomes an own data property of the target. *)
Definition Reflect_set (target : OrderedCollection) (prop : PropertyKey)
    (value : Value) : bool * OrderedCollection :=
  match slots target !! prop with
  | Some (Getter _) | Some (Internal _) => (false, target)
  | Some (Method _) | Some (Data _) | None =>
      (true, with_slots target (<[prop := Data value]> (slots target)))
  end.

(** Comparisons of a parsed number, false on NaN. *)
Definition isNaN (n : option Z) : bool :=
  match n with None => true | Some _ => false end.

Definition ge0 (n : option Z) : bool :=
  match n with None => false | Some i => 0 <=? i end.

Definition lt0 (n : option Z) : bool :=
  match n with None => false | Some i => i <? 0 end.

Definition number_to_string (n : option Z) : string :=
  match n with None => "NaN" | Some i => pretty i end.

(** [PROXY_HANDLER.get] *)
Definition PROXY_HANDLER_get (target : OrderedCollection)
    (prop : PropertyKey) : M World Value :=
  if Reflect_has target prop then Reflect_get target prop
  else match prop with
       | PString name =>
           let index := parseInt name in
           if negb (isNaN index) && ge0 index then
             (let* len := length target in
              match index with
              | Some i =>
                  if i <? len
                  then (let* h := get target i in ret (VHost h))
                  else ret VUndefined
              | None => ret VUndefined
              end)%js
           else ret VUndefined
       | PSymbol _ => ret VUndefined
       end.

(** [PROXY_HANDLER.set]; the result carries the target as the call leaves
    it. *)
Definition PROXY_HANDLER_set (target : OrderedCollection)
    (prop : PropertyKey) (value : Value)
    : M World (bool * OrderedCollection) :=
  match prop with
  | PString name =>
      let index := parseInt name in
      if negb (isNaN index) && ge0 index then
        match index with
        | Some i => (let* _ := set target i value in ret (true, target))%js
        | None => ret (Reflect_set target prop value)
        end
      else if lt0 index then
        throw (Error ("Index " ++ number_to_string index
                      ++ " cannot be less than zero."))
      else ret (Reflect_set target prop value)
  | PSymbol _ => ret (Reflect_set target prop value)
  end.

(** *** Searching *)

(** Modelled from the spec: [assert] of [./assert], which is not among the
    sources; a false condition raises an assertion error carrying the
    message. *)
Definition assert (condition : bool) (message : string) : M World unit :=
  if condition then ret tt else throw (AssertionError message).

(** Modelled from the spec: [assert.string] of [./assert]; a value that is
    not a string raises a type-assertion error naming the target. *)
Definition assert_string (value : option string) (target : string)
    : M World string :=
  match value with
  | Some s => ret s
  | None => throw (TypeAssertionError "a string" target)
  end.

(** [indexOf(searchElement, fromIndex?)]; [None] is an omitted or undefined
    [fromIndex]. *)
Definition indexOf (this : OrderedCollection) (searchElement : Host)
    (fromIndex : option Z) : M World Z :=
  (let* _ := assert (bool_decide (fromIndex = None))
               "The second fromIndex argument is not yet supported" in
   match getInternal searchElement with
   | Some o => results_indexOfObj (results this) o
   | None => results_indexOf (results this) (toBinding searchElement)
   end)%js.

(** *** Aggregates *)

(** [properties.get(name).columnKey] of the class helpers; an unknown name
    is refused. *)
Definition property_columnKey (h : ClassHelpers) (name : string)
    : M World ColKey :=
  match properties h !! name with
  | Some column => ret column
  | None => throw (Error ("Property '" ++ name ++ "' does not exist"))
  end.

(** [getPropertyColumnKey(name)]; an empty name is falsy. *)
Definition getPropertyColumnKey (this : OrderedCollection)
    (name : option string) : M World ColKey :=
  match classHelpers this with
  | Some h =>
      (let* n := assert_string name "name" in property_columnKey h n)%js
  | None =>
      match name with
      | Some (String a rest) =>
          throw (Error ("Cannot get property named '" ++ String a rest
                        ++ "' on a list of primitives"))
      | Some EmptyString | None => ret DEFAULT_COLUMN_KEY
      end
  end.

(** [min(property?)] *)
Definition min (this : OrderedCollection) (property : option string)
    : M World AggregateValue :=
  (let* columnKey := getPropertyColumnKey this property in
   let* result := results_aggregate Min (results this) columnKey in
   match result with
   | AggDate d => ret (ValDate d)
   | AggNumber q => ret (ValNumber q)
   | AggUndefined => ret ValUndefined
   | AggBigInt z => ret (ValNumber (inject_Z z))
   | AggFloat q => ret (ValNumber q)
   | AggTimestamp d => ret (ValDate d)
   | AggOther _ =>
       throw (TypeAssertionError
                "Timestamp, number, bigint, Float or null" "result")
   end)%js.

(** [max(property?)] *)
Definition max (this : OrderedCollection) (property : option string)
    : M World AggregateValue :=
  (let* columnKey := getPropertyColumnKey this property in
   let* result := results_aggregate Max (results this) columnKey in
   match result with
   | AggDate d => ret (ValDate d)
   | AggNumber q => ret (ValNumber q)
   | AggUndefined => ret ValUndefined
   | AggBigInt z => ret (ValNumber (inject_Z z))
   | AggFloat q => ret (ValNumber q)
   | AggTimestamp d => ret (ValDate d)
   | AggOther _ =>
       throw (TypeAssertionError
                "Timestamp, number, bigint, Float or undefined" "result")
   end)%js.

(** [sum(property?)] *)
Definition sum (this : OrderedCollection) (property : option string)
    : M World AggregateValue :=
  (let* columnKey := getPropertyColumnKey this property in
   let* result := results_aggregate Sum (results this) columnKey in
   match result with
   | AggNumber q => ret (ValNumber q)
   | AggBigInt z => ret (ValNumber (inject_Z z))
   | AggFloat q => ret (ValNumber q)
   | AggUndefined | AggDate _ | AggTimestamp _ | AggOther _ =>
       throw (TypeAssertionError "number, bigint or Float" "result")
   end)%js.

(** [avg(property?)] *)
Definition avg (this : OrderedCollection) (property : option string)
    : M World AggregateValue :=
  (let* columnKey := getPropertyColumnKey this property in
   let* result := results_aggregate Average (results this) columnKey in
   match result with
   | AggNumber q => ret (ValNumber q)
   | AggUndefined => ret ValUndefined
   | AggBigInt z => ret (ValNumber (inject_Z z))
   | AggFloat q => ret (ValNumber q)
   | AggDate _ | AggTimestamp _ | AggOther _ =>
       throw (TypeAssertionError
                "number, Float, bigint or undefined" "result")
   end)%js.

(** *** Derived collections *)

(** [new Results(realm, results, helpers)]; the constructor has its
    arguments here. *)
Definition new_Results (rlm : Realm) (res : Results)
    : M World OrderedCollection :=
  fun w => (construct "Results" (Some (rlm, res)), w).

(** The optional "reversed" of a descriptor becomes the "ascending" the
    binding expects. *)
Definition to_binding_descriptor (arg : SortDescriptor) : string * bool :=
  match arg with
  | DescName path => (path, true)
  | DescPair path reverse => (path, negb reverse)
  end.

(** The first argument of [sorted]. *)
Inductive SortedArg :=
| ArgUndefined
| ArgBoolean (reverse : bool)
| ArgString (descriptor : string)
| ArgDescriptors (descriptors : list SortDescriptor)
| ArgOther.

(** [sorted(arg0)] with an array. *)
Definition sorted_array (this : OrderedCollection)
    (arg0 : list SortDescriptor) : M World OrderedCollection :=
  (let descriptors := to_binding_descriptor <$> arg0 in
   let* res := results_sortByNames (results this) descriptors in
   new_Results (realm this) res)%js.

(** [sorted(arg0 = "self", arg1?)]; the string and boolean forms call
    [sorted] again with an array. *)
Definition sorted (this : OrderedCollection) (arg0 : SortedArg)
    (arg1 : option bool) : M World OrderedCollection :=
  let arg0 := match arg0 with ArgUndefined => ArgString "self" | a => a end in
  match arg0 with
  | ArgDescriptors descriptors => sorted_array this descriptors
  | ArgString name =>
      sorted_array this [DescPair name (bool_decide (arg1 = Some true))]
  | ArgBoolean reverse => sorted_array this [DescPair "self" reverse]
  | ArgUndefined | ArgOther =>
      throw (Error ("Expected either a property name and optional bool "
                    ++ "or an array of descriptors"))
  end.

(** [snapshot()] *)
Definition snapshot (this : OrderedCollection) : M World OrderedCollection :=
  (let* res := results_snapshot (results this) in
   new_Results (realm this) res)%js.

(** *** The remaining traps *)

(** The attributes of a property descriptor. *)
Record PropertyDescriptor := {
  configurable : bool;
  enumerable : bool;
  writable : bool;
}.

Definition DEFAULT_PROPERTY_DESCRIPTOR : PropertyDescriptor :=
  {| configurable := true; enumerable := true; writable := true |}.

(** [Reflect.getOwnPropertyDescriptor(target, prop)]: the internal fields
    are own and were made non-enumerable, non-configurable and non-writable
    by the constructor; a property created by assignment has all three
    attributes; methods and getters are inherited, not own; [None] is
    [undefined]. *)
Definition Reflect_getOwnPropertyDescriptor (target : OrderedCollection)
    (prop : PropertyKey) : option PropertyDescriptor :=
  match slots target !! prop with
  | Some (Internal _) =>
      Some {| configurable := false; enumerable := false; writable := false |}
  | Some (Data _) => Some DEFAULT_PROPERTY_DESCRIPTOR
  | Some (Method _) | Some (Getter _) | None => None
  end.

(** [index < length] on a parsed number, false on NaN. *)
Definition js_lt (n : option Z) (m : Z) : bool :=
  match n with None => false | Some i => i <? m end.

(** [PROXY_HANDLER.getOwnPropertyDescriptor] *)
Definition PROXY_HANDLER_getOwnPropertyDescriptor
    (target : OrderedCollection) (prop : PropertyKey)
    : M World (option PropertyDescriptor) :=
  if Reflect_has target prop
  then ret (Reflect_getOwnPropertyDescriptor target prop)
  else match prop with
       | PString name =>
           let index := parseInt name in
           (let* len := length target in
            if js_lt index len then ret (Some DEFAULT_PROPERTY_DESCRIPTOR)
            else ret None)%js
       | PSymbol _ => ret None
       end.

Definition is_own (slot : Slot) : bool :=
  match slot with
  | Internal _ | Data _ => true
  | Method _ | Getter _ => false
  end.

(** [Reflect.ownKeys(target)]: the keys of the own properties, listed in
    the order of the table (the order among them is not the engine's). *)
Definition Reflect_ownKeys (target : OrderedCollection) : list PropertyKey :=
  (filter (fun entry => is_own entry.2 = true)
          (map_to_list (slots target))).*1.

(** [[...iterator]] on a keys iterator; [None] means the fuel ran out. *)
Fixpoint drain_keys (fuel : nat) (it : KeysIterator) : option (list Z) :=
  match fuel with
  | O => None
  | S fuel' =>
      match keys_next it with
      | (None, _) => Some []
      | (Some k, it') => (fun ks => k :: ks) <$> drain_keys fuel' it'
      end
  end.

(** [PROXY_HANDLER.ownKeys]: the own keys of the target, then the keys of
    [keys()] as strings. *)
Definition PROXY_HANDLER_ownKeys (fuel : nat) (target : OrderedCollection)
    (w : World) : option (Completion (list PropertyKey) * World) :=
  match keys target w with
  | (Throw e, w') => Some (Throw e, w')
  | (Normal it, w') =>
      (fun ks =>
         (Normal (Reflect_ownKeys target
                  ++ ((fun k => PString (index_key k)) <$> ks))%list, w'))
      <$> drain_keys fuel it
  end.


(** *** Methods that work on the materialised elements *)

(** [[...this]]: the default iterator is [values()]. *)
Definition spread (fuel : nat) (this : OrderedCollection) (w : World)
    : option (Completion (list Host) * World) :=
  match values this w with
  | (Throw e, w') => Some (Throw e, w')
  | (Normal it, w') => drain fuel it w'
  end.

(** [Array.prototype.at]: a negative index counts from the end; [None] is
    [undefined]. *)
Definition Array_at {A : Type} (l : list A) (index : Z) : option A :=
  let len := Z.of_nat (List.length l) in
  let k := if 0 <=? index then index else len + index in
  if (k <? 0) || (len <=? k) then None else l !! Z.to_nat k.

(** [at(index)] *)
Definition at_ (fuel : nat) (this : OrderedCollection) (index : Z)
    (w : World) : option (Completion (option Host) * World) :=
  match spread fuel this w with
  | Some (Normal elems, w') => Some (Normal (Array_at elems index), w')
  | Some (Throw e, w') => Some (Throw e, w')
  | None => None
  end.

(** *** Notifications *)

Section Notifications.

(** The state the listeners act on. *)
Context {U : Type}.

(** What a delivery can touch: the listeners' state and the tasks
    [setImmediate] has queued, each of which throws its error. *)
Record Loop := {
  user : U;
  immediates : list JsError;
}.

(** [CollectionChangeCallback<T>] *)
Definition CollectionChangeCallback : Type :=
  OrderedCollection -> CollectionChangeSet -> M U unit.

Definition run_listener (m : M U unit) : M Loop unit :=
  fun s =>
    let '(r, u) := m (user s) in
    (r, {| user := u; immediates := immediates s |}).

(** [setImmediate(() => { throw err; })] *)
Definition setImmediate_throw (err : JsError) : M Loop unit :=
  modify (fun s => {| user := user s;
                      immediates := immediates s ++ [err] |}).

(** The callback the constructor hands to [addNotificationCallback]. *)
Definition notification_callback (this : OrderedCollection)
    (callback : CollectionChangeCallback) (changes : BindingChangeSet)
    : M Loop unit :=
  try_catch (run_listener (callback this (translate changes)))
            setImmediate_throw.

(** Modelled from the spec: [addListener] of [Collection], which is not
    among the sources; the listener is registered after those already
    there, wrapped by the constructor's callback. *)
Definition addListener (this : OrderedCollection)
    (callback : CollectionChangeCallback)
    (registered : list (BindingChangeSet -> M Loop unit))
    : list (BindingChangeSet -> M Loop unit) :=
  registered ++ [notification_callback this callback].

(** Modelled from the spec: one delivery by the engine, which calls every
    registered callback in registration order; an error raised by one of
    them unwinds the delivery. *)
Fixpoint deliver (registered : list (BindingChangeSet -> M Loop unit))
    (changes : BindingChangeSet) : M Loop unit :=
  match registered with
  | [] => ret tt
  | callback :: rest =>
      (let* _ := callback changes in deliver rest changes)%js
  end.

(** Modelled from the spec: a later turn of the event loop runs the
    oldest queued task, which throws its error. *)
Definition run_immediate (s : Loop) : option (JsError * Loop) :=
  match immediates s with
  | [] => None
  | err :: rest => Some (err, {| user := user s; immediates := rest |})
  end.

(** What the listeners do one after the other when each one's error is set
    aside: the state they leave and the errors they raised, in order. *)
Fixpoint run_listeners (this : OrderedCollection)
    (callbacks : list CollectionChangeCallback)
    (changes : CollectionChangeSet) (u : U) : U * list JsError :=
  match callbacks with
  | [] => (u, [])
  | callback :: rest =>
      let '(r, u1) := callback this changes u in
      let '(u2, errs) := run_listeners this rest changes u1 in
      (u2, match r with Normal _ => errs | Throw err => err :: errs end)
  end.

End Notifications.

End Model.

End Facade.

(** ** A small instance: integers kept as their decimal numerals *)

Module Sample.

Import Facade.

Definition sample_helpers : @TypeHelpers Z string Z :=
  {| toBinding := fun s => default 0 (parseInt s);
     fromBinding := fun z => pretty z;
     getInternal := fun _ => None |}.

Fixpoint index_from (i : Z) (l : list Z) (x : Z) : Z :=
  match l with
  | [] => -1
  | y :: rest => if x =? y then i else index_from (i + 1) rest x
  end.

Definition sample_engine : @Engine Z Z :=
  {| engine_sort := fun descriptors l =>
       match descriptors with
       | (_, false) :: _ => reverse l
       | _ => l
       end;
     engine_indexOf := index_from 0;
     engine_indexOfObj := index_from 0;
     engine_aggregate := fun kind _ l =>
       match kind with
       | Min => AggBigInt (foldr Z.min (hd 0 l) l)
       | Max => AggBigInt (foldr Z.max (hd 0 l) l)
       | Sum => AggBigInt (foldr Z.add 0 l)
       | Average =>
           AggNumber (inject_Z (foldr Z.add 0 l)
                      / inject_Z (Z.of_nat (List.length l)))
       end;
     engine_sum_repr := fun _ => ReprBigInt |}.

Definition sample_realm : Realm :=
  {| getClassHelpers := fun _ =>
       {| properties := {[ "age" := 1; "name" := 2 ]} |} |}.

(** A collection of primitives over the live table. *)
Definition primitives : @OrderedCollection Z string :=
  {| class_name := "Results";
     realm := sample_realm;
     results := {| objectType := ""; view := VTable |};
     classHelpers := None;
     slots := list_to_map declared_slots |}.

(** A collection of objects of class [Person]. *)
Definition persons : @OrderedCollection Z string :=
  {| class_name := "Results";
     realm := sample_realm;
     results := {| objectType := "Person"; view := VTable |};
     classHelpers := Some (getClassHelpers sample_realm "Person");
     slots := list_to_map declared_slots |}.

Definition world_of (data : list Z) : @World Z :=
  {| table := data; calls := [] |}.

(** Two listeners over a log of the change sets seen: one raises, one
    records. *)
Definition failing_listener
    : @CollectionChangeCallback Z string (list CollectionChangeSet) :=
  fun _ _ seen => (Throw (Error "listener failed"), seen).

Definition recording_listener
    : @CollectionChangeCallback Z string (list CollectionChangeSet) :=
  fun _ changes seen => (Normal tt, (seen ++ [changes])%list).

Definition sample_changes : BindingChangeSet :=
  {| raw_deletions := [(0, 3); (5, 6)];
     raw_insertions := [(1, 2)];
     raw_modifications := [];
     raw_modificationsNew := [(4, 6)] |}.

Definition idle : @Loop (list CollectionChangeSet) :=
  {| user := []; immediates := [] |}.

End Sample.

(** * Properties *)

Import Facade.

Example parseInt_12 : parseInt "12" = Some 12.
Proof. reflexivity. Qed.

Example parseInt_neg : parseInt "-3" = Some (-3).
Proof. reflexivity. Qed.

Example parseInt_prefix : parseInt "  7px" = Some 7.
Proof. reflexivity. Qed.

Example parseInt_NaN : parseInt "length" = None.
Proof. reflexivity. Qed.

Example index_key_42 : index_key 42 = "42".
Proof. reflexivity. Qed.

Example construct_primitives :
  construct "Results"
    (Some (Sample.sample_realm, {| objectType := ""; view := VTable |}))
  = Normal Sample.primitives.
Proof. reflexivity. Qed.

Example construct_persons :
  construct "Results"
    (Some (Sample.sample_realm, {| objectType := "Person"; view := VTable |}))
  = Normal Sample.persons.
Proof. reflexivity. Qed.

Example construct_without_arguments :
  @construct Z string "Results" None
  = Throw (IllegalConstructorError "OrderedCollection").
Proof. reflexivity. Qed.

(** ** Decimal keys parse back to their index *)

Section Keys.

Lemma digit_value_char (r : N) :
  (r < 10)%N -> digit_value (pretty_N_char r) = Some (Z.of_N r).
Proof.
  intros Hr.
  assert (r = 0 \/ r = 1 \/ r = 2 \/ r = 3 \/ r = 4 \/ r = 5 \/ r = 6
          \/ r = 7 \/ r = 8 \/ r = 9)%N as Hcases by lia.
  repeat (destruct Hcases as [-> | Hcases]; [reflexivity |]).
  subst r. reflexivity.
Qed.

Lemma digit_not_whitespace (a : ascii) (d : Z) :
  digit_value a = Some d ->
  is_whitespace a = false /\ a <> "-"%char /\ a <> "+"%char.
Proof.
  destruct a as [[] [] [] [] [] [] [] []]; vm_compute; intros H;
    try discriminate H; repeat split; discriminate.
Qed.

Lemma parse_digits_go (x : N) :
  forall s, exists k, 0 <= k /\
    forall acc, parse_digits (pretty_N_go x s) acc
                = parse_digits s (acc * 10 ^ k + Z.of_N x).
Proof.
  induction (N.lt_wf_0 x) as [x _ IH]. intros s.
  destruct (decide (x = 0%N)) as [-> | Hx].
  - exists 0. split; [lia |]. intros acc. rewrite pretty_N_go_0.
    f_equal. lia.
  - rewrite pretty_N_go_step by lia.
    destruct (IH (x `div` 10)%N) with
      (s := String (pretty_N_char (x `mod` 10)) s) as (k & Hk & Heq).
    { apply N.div_lt; lia. }
    exists (k + 1). split; [lia |]. intros acc. rewrite Heq. simpl.
    rewrite digit_value_char by (apply N.mod_lt; lia).
    f_equal. rewrite Z.pow_add_r by lia.
    rewrite N2Z.inj_mod, N2Z.inj_div. change (Z.of_N 10) with 10.
    pose proof (Z.div_mod (Z.of_N x) 10 ltac:(lia)) as Hz.
    set (q := Z.of_N x `div` 10) in *. set (m := Z.of_N x `mod` 10) in *.
    set (pk := 10 ^ k) in *. change (10 ^ 1) with 10. lia.
Qed.

Lemma pretty_N_go_head (x : N) :
  forall s, (0 < x)%N ->
    exists r rest, (r < 10)%N /\
      pretty_N_go x s = String (pretty_N_char r) rest.
Proof.
  induction (N.lt_wf_0 x) as [x _ IH]. intros s Hx.
  rewrite pretty_N_go_step by done.
  destruct (decide (x `div` 10 = 0)%N) as [Hz | Hnz].
  - rewrite Hz, pretty_N_go_0. eexists _, _. split; [| reflexivity].
    apply N.mod_lt. lia.
  - apply IH; [apply N.div_lt; lia | by apply N.neq_0_lt_0].
Qed.

Lemma parse_unsigned_positive (p : positive) :
  exists a rest,
    pretty (N.pos p) = String a rest
    /\ is_whitespace a = false /\ a <> "-"%char /\ a <> "+"%char
    /\ parse_unsigned (pretty (N.pos p)) = Some (Z.pos p).
Proof.
  unfold pretty, pretty_N. rewrite decide_False by done.
  destruct (pretty_N_go_head (N.pos p) "") as (r & rest & Hr & Heq); [lia |].
  pose proof (digit_value_char r Hr) as Hd.
  destruct (digit_not_whitespace _ _ Hd) as (Hw & Hm & Hp).
  exists (pretty_N_char r), rest. repeat split; try done.
  destruct (parse_digits_go (N.pos p) "") as (k & Hk & Hgo).
  unfold parse_unsigned. rewrite Heq, Hd, <- Heq, Hgo. simpl. f_equal.
Qed.

Lemma parseInt_index_key (i : Z) : parseInt (index_key i) = Some i.
Proof.
  destruct i as [| p | p].
  - reflexivity.
  - change (index_key (Z.pos p)) with (pretty (N.pos p)).
    destruct (parse_unsigned_positive p)
      as (a & rest & Heq & Hw & Hm & Hp & Hv).
    revert Heq Hv. generalize (pretty (N.pos p)). intros str -> Hv.
    unfold parseInt. simpl. rewrite Hw.
    destruct a as [[] [] [] [] [] [] [] []]; try exact Hv; done.
  - change (index_key (Z.neg p)) with (String "-" (pretty (N.pos p))).
    destruct (parse_unsigned_positive p)
      as (a & rest & Heq & Hw & Hm & Hp & Hv).
    revert Heq Hv. generalize (pretty (N.pos p)). intros str -> Hv.
    unfold parseInt. cbn [skip_whitespace is_whitespace].
    change (is_whitespace "-") with false. cbv iota. rewrite Hv. reflexivity.
Qed.

End Keys.

(** ** The facade *)

Section Properties.

Context {Native Host Obj : Type}.
Context {helpers : @TypeHelpers Native Host Obj} (engine : @Engine Native Obj).

Implicit Types (t : @OrderedCollection Native Host) (w : @World Native).
Implicit Types (v : @Value Host) (i : Z).

(** The length the facade reports in a world. *)
Lemma length_contents t w :
  length engine t w
  = (Normal (Z.of_nat (List.length (contents engine (results t) w))),
     {| table := table w; calls := calls w ++ [CallSize] |}).
Proof. reflexivity. Qed.

Lemma declared_slots_no_index :
  forallb (fun entry : PropertyKey * @Slot Host =>
             match entry.1 with
             | PString name => isNaN (parseInt name)
             | PSymbol _ => true
             end) declared_slots = true.
Proof. vm_compute. reflexivity. Qed.

Lemma Normal_inj {A} (a b : A) : Normal a = Normal b -> a = b.
Proof. by intros [= ->]. Qed.

(** The constructor leaves no property with a numeric name on the target. *)
Lemma construct_no_index_slots name args t :
  construct name args = Normal t -> no_index_slots t.
Proof.
  destruct args as [[rlm res] |]; unfold construct; [| discriminate].
  intros Heq. apply Normal_inj in Heq. subst t.
  intros key [slot Hslot]. cbn [slots] in Hslot.
  apply elem_of_list_to_map_2, list_elem_of_In in Hslot.
  pose proof (proj1 (forallb_forall _ _) declared_slots_no_index _ Hslot)
    as Hall.
  cbn beta iota delta [fst] in Hall. by destruct (parseInt key).
Qed.


(** A target without numeric property names does not have the key of an
    index. *)
Lemma Reflect_has_index_key t i :
  no_index_slots t -> Reflect_has t (PString (index_key i)) = false.
Proof.
  intros Hinv. unfold Reflect_has. apply bool_decide_eq_false. intros Hsome.
  apply Hinv in Hsome. rewrite parseInt_index_key in Hsome. discriminate.
Qed.

(** A string key that parses as a number at or above zero is handed to
    [set], whatever the length is. *)
Lemma PROXY_HANDLER_set_index t name i v :
  parseInt name = Some i -> 0 <= i ->
  PROXY_HANDLER_set t (PString name) v
  = (let* _ := set t i v in ret (true, t))%js.
Proof.
  intros Hparse Hi. unfold PROXY_HANDLER_set. rewrite Hparse. simpl.
  destruct (Z.leb_spec 0 i); [reflexivity | lia].
Qed.

(** C8: [set(i, v)] on the base ordered collection raises its error for
    every index and every value, and the world, hence the contents of the
    collection, is as it was before the call. *)
Theorem set_always_fails t w i v :
  set t i v w
  = (Throw (Error ("Assigning into a " ++ class_name t ++ " is not support")),
     w)
  /\ contents engine (results t) (snd (set t i v w))
     = contents engine (results t) w.
Proof. split; reflexivity. Qed.

(** C1 (amended): a write of [v] at an index [i >= length] through the
    proxy's [set] trap is handed to the collection's [set] like any write at
    an index at or above zero; on the base collection it therefore raises
    the "Assigning into" error, the world (and with it the collection) is
    unchanged, and no property is assigned on the target. *)
Theorem write_beyond_length_reaches_set t w i v :
  Z.of_nat (List.length (contents engine (results t) w)) <= i ->
  PROXY_HANDLER_set t (PString (index_key i)) v w
  = (let* _ := set t i v in ret (true, t))%js w
  /\ PROXY_HANDLER_set t (PString (index_key i)) v w
     = (Throw (Error ("Assigning into a " ++ class_name t
                      ++ " is not support")), w).
Proof.
  intros Hlen.
  rewrite (PROXY_HANDLER_set_index t (index_key i) i v)
    by (auto using parseInt_index_key; lia).
  split; reflexivity.
Qed.

(** C2: with no numeric property name on the target, reading the key of an
    index [i] in [[0, length)] gives [fromBinding] of the backing element at
    [i], through [get] and through the proxy's [get] trap alike; reading the
    key of an index outside that range through the trap gives [undefined]
    and raises nothing. *)
Theorem indexed_read t w i :
  no_index_slots t ->
  let elems := contents engine (results t) w in
  (0 <= i < Z.of_nat (List.length elems) ->
   exists x,
     elems !! Z.to_nat i = Some x
     /\ fst (get engine t i w) = Normal (fromBinding x)
     /\ fst (PROXY_HANDLER_get engine t (PString (index_key i)) w)
        = Normal (VHost (fromBinding x)))
  /\ (~ 0 <= i < Z.of_nat (List.length elems) ->
      fst (PROXY_HANDLER_get engine t (PString (index_key i)) w)
      = Normal VUndefined).
Proof.
  intros Hinv elems. unfold PROXY_HANDLER_get.
  rewrite (Reflect_has_index_key t i Hinv), parseInt_index_key.
  unfold isNaN, ge0. cbn [negb andb]. split.
  - intros [Hlo Hhi].
    destruct (lookup_lt_is_Some_2 elems (Z.to_nat i)) as [x Hx]; [lia |].
    exists x. split; [exact Hx |].
    assert (fst (get engine t i w) = Normal (fromBinding x)) as Hget.
    { unfold get, results_get, bind, called, modify, gets, ret, contents.
      cbn [fst snd table]. destruct (Z.ltb_spec i 0); [lia |].
      fold elems. unfold contents in elems. fold elems. rewrite Hx.
      reflexivity. }
    split; [exact Hget |].
    destruct (Z.leb_spec 0 i); [| lia].
    unfold bind at 1. rewrite length_contents. fold elems.
    destruct (Z.ltb_spec i (Z.of_nat (List.length elems))); [| lia].
    revert Hget. unfold get, results_get, bind, called, modify, gets, ret,
      contents. cbn [fst snd table]. destruct (Z.ltb_spec i 0); [lia |].
    unfold contents in elems. fold elems. rewrite Hx. reflexivity.
  - intros Hout. destruct (Z.leb_spec 0 i); [| reflexivity].
    unfold bind at 1. rewrite length_contents. fold elems.
    destruct (Z.ltb_spec i (Z.of_nat (List.length elems))); [lia |].
    reflexivity.
Qed.

(** C9: with a defined [fromIndex], [indexOf] raises the assertion error
    "The second fromIndex argument is not yet supported" and leaves the
    world, with its log of calls into the binding, untouched; a call that
    returns had [fromIndex] omitted, and a call with [fromIndex] omitted
    does return. *)
Theorem indexOf_rejects_fromIndex t w (searchElement : Host) :
  (forall k,
     indexOf engine t searchElement (Some k) w
     = (Throw (AssertionError
                 "The second fromIndex argument is not yet supported"), w))
  /\ (forall fromIndex r w',
        indexOf engine t searchElement fromIndex w = (Normal r, w') ->
        fromIndex = None)
  /\ (exists r w',
        indexOf engine t searchElement None w = (Normal r, w')
        /\ calls w' <> calls w).
Proof.
  split; [reflexivity |]. split.
  - intros [k |] r w' H; [discriminate H | reflexivity].
  - unfold indexOf, assert, bind, ret. cbn [bool_decide decide].
    rewrite bool_decide_eq_true_2 by reflexivity.
    destruct (getInternal searchElement); eexists _, _;
      (split; [reflexivity |]); cbn [calls];
      intros Heq; apply (f_equal List.length) in Heq;
      rewrite length_app in Heq; simpl in Heq; lia.
Qed.

(** Column resolution does not touch the world. *)
Lemma getPropertyColumnKey_world t name w :
  snd (getPropertyColumnKey t name w) = w.
Proof.
  unfold getPropertyColumnKey, assert_string, property_columnKey, bind.
  destruct (classHelpers t) as [h |].
  - destruct name as [n |]; [| reflexivity]. cbn [ret].
    by destruct (properties h !! n).
  - by destruct name as [[| a rest] |].
Qed.

(** C10: on a collection with class helpers, [min], [max], [sum] and [avg]
    called without a property name raise the type-assertion error on
    [name] before any call into the binding, and column resolution does not
    yield the default column. *)
Theorem aggregate_without_name_on_objects t w h :
  classHelpers t = Some h ->
  let err := TypeAssertionError "a string" "name" in
  min engine t None w = (Throw err, w)
  /\ max engine t None w = (Throw err, w)
  /\ sum engine t None w = (Throw err, w)
  /\ avg engine t None w = (Throw err, w)
  /\ getPropertyColumnKey t None w = (Throw err, w)
  /\ fst (getPropertyColumnKey t None w) <> Normal DEFAULT_COLUMN_KEY.
Proof.
  intros Hh err.
  assert (getPropertyColumnKey t None w = (Throw err, w)) as Hkey.
  { unfold getPropertyColumnKey. rewrite Hh. reflexivity. }
  unfold min, max, sum, avg, bind. rewrite Hkey.
  repeat split; try reflexivity. discriminate.
Qed.

(** The binding's aggregate on an empty result set. *)
Lemma results_aggregate_empty kind t w column :
  contents engine (results t) w = [] ->
  fst (results_aggregate engine kind (results t) column w)
  = Normal (match kind with
            | Sum => zero_of (engine_sum_repr engine column)
            | _ => AggUndefined
            end).
Proof.
  intros Hempty.
  unfold results_aggregate, bind, called, modify, gets, ret, contents in *.
  cbn [fst snd table]. rewrite Hempty. by destruct kind.
Qed.

(** C7: on an empty collection, with a property argument that resolves to
    a column, [min], [max] and [avg] return [undefined] and [sum] returns
    the number 0. *)
Theorem aggregates_on_empty t w property column :
  fst (length engine t w) = Normal 0 ->
  fst (getPropertyColumnKey t property w) = Normal column ->
  fst (min engine t property w) = Normal ValUndefined
  /\ fst (max engine t property w) = Normal ValUndefined
  /\ fst (avg engine t property w) = Normal ValUndefined
  /\ fst (sum engine t property w) = Normal (ValNumber 0).
Proof.
  rewrite length_contents. cbn [fst]. intros Hlen Hkey.
  apply Normal_inj in Hlen.
  assert (contents engine (results t) w = []) as Hempty.
  { destruct (contents engine (results t) w); [reflexivity | discriminate]. }
  pose proof (getPropertyColumnKey_world t property w) as Hw.
  destruct (getPropertyColumnKey t property w) as [r w0] eqn:Hcol.
  cbn [fst snd] in Hkey, Hw. subst r w0.
  pose proof (fun kind => results_aggregate_empty kind t w column Hempty)
    as Hagg.
  unfold min, max, avg, sum, bind. rewrite Hcol.
  repeat split.
  - specialize (Hagg Min).
    destruct (results_aggregate engine Min (results t) column w) as [r w1].
    cbn [fst] in Hagg. subst r. reflexivity.
  - specialize (Hagg Max).
    destruct (results_aggregate engine Max (results t) column w) as [r w1].
    cbn [fst] in Hagg. subst r. reflexivity.
  - specialize (Hagg Average).
    destruct (results_aggregate engine Average (results t) column w)
      as [r w1].
    cbn [fst] in Hagg. subst r. reflexivity.
  - specialize (Hagg Sum).
    destruct (results_aggregate engine Sum (results t) column w) as [r w1].
    cbn [fst] in Hagg. subst r.
    by destruct (engine_sum_repr engine column).
Qed.

(** C4: [sorted(name)], [sorted([[name, false]])] and [sorted(name, false)]
    are the same call, and so are [sorted(true)] and
    [sorted([["self", true]])]; the binding is asked to sort by
    [(name, true)], respectively [("self", false)]; a string descriptor is
    ascending and a pair carries the negation of its flag. *)
Theorem sorted_call_shapes t w (name : string) :
  sorted t (ArgString name) None w
  = sorted t (ArgDescriptors [DescPair name false]) None w
  /\ sorted t (ArgString name) (Some false) w
     = sorted t (ArgDescriptors [DescPair name false]) None w
  /\ sorted t (ArgBoolean true) None w
     = sorted t (ArgDescriptors [DescPair "self" true]) None w
  /\ calls (snd (sorted t (ArgString name) None w))
     = (calls w ++ [CallSortByNames [(name, true)]])%list
  /\ calls (snd (sorted t (ArgBoolean true) None w))
     = (calls w ++ [CallSortByNames [("self", false)]])%list
  /\ (forall path, to_binding_descriptor (DescName path) = (path, true))
  /\ (forall path reverse,
        to_binding_descriptor (DescPair path reverse) = (path, negb reverse)).
Proof. repeat split; reflexivity. Qed.

(** What [values()] captures: a snapshot holding the elements of the
    moment, and their number. *)
Lemma values_captures t w :
  values engine t w
  = (Normal
       {| values_snapshot :=
            {| objectType := objectType (results t);
               view := VSnapshot (contents engine (results t) w) |};
          values_keys :=
            {| keys_size :=
                 Z.of_nat (List.length (contents engine (results t) w));
               keys_index := 0 |} |},
     {| table := table w;
        calls := (calls w ++ [CallSnapshot]) ++ [CallSize] |}).
Proof. reflexivity. Qed.

(** An iterator over a snapshot yields the rest of the snapshot, whatever
    the table holds while it is pulled. *)
Lemma drain_snapshot (frozen : list Native) (type_name : string) :
  forall (fuel k : nat) w,
    (k <= List.length frozen)%nat ->
    (List.length frozen - k < fuel)%nat ->
    exists w',
      drain engine fuel
        {| values_snapshot :=
             {| objectType := type_name; view := VSnapshot frozen |};
           values_keys :=
             {| keys_size := Z.of_nat (List.length frozen);
                keys_index := Z.of_nat k |} |} w
      = Some (Normal (fromBinding <$> drop k frozen), w')
      /\ table w' = table w.
Proof.
  induction fuel as [| fuel IH]; intros k w Hk Hfuel; [lia |].
  cbn [drain]. unfold values_next, keys_next.
  cbn [values_keys values_snapshot keys_index keys_size].
  destruct (Z.ltb_spec (Z.of_nat k) (Z.of_nat (List.length frozen)))
    as [Hlt | Hge].
  - destruct (lookup_lt_is_Some_2 frozen k) as [x Hx]; [lia |].
    unfold results_get, bind, called, modify, gets, ret, contents.
    cbn [view view_contents table].
    destruct (Z.ltb_spec (Z.of_nat k) 0); [lia |].
    rewrite Nat2Z.id, Hx.
    replace (Z.of_nat k + 1) with (Z.of_nat (S k)) by lia.
    edestruct (IH (S k)) as (w' & Hdrain & Htable); [lia | lia |].
    rewrite Hdrain. exists w'. split; [| exact Htable].
    by rewrite (drop_S _ _ _ Hx).
  - exists w. split; [| reflexivity].
    rewrite drop_ge by lia. reflexivity.
Qed.

(** C5: an iterator obtained from [values()] and pulled after the table has
    been rewritten yields the elements the collection had when the iterator
    was made, as many as it had then; [get(index)] on the facade after the
    same write gives the element the collection has now. *)
Theorem iterator_keeps_snapshot t w it w1 (data : list Native) (fuel : nat) :
  values engine t w = (Normal it, w1) ->
  (List.length (contents engine (results t) w) < fuel)%nat ->
  let before := contents engine (results t) w in
  let w2 := write_table data w1 in
  keys_size (values_keys it) = Z.of_nat (List.length before)
  /\ (exists w3,
        drain engine fuel it w2 = Some (Normal (fromBinding <$> before), w3))
  /\ (forall (n : nat) x,
        contents engine (results t) w2 !! n = Some x ->
        fst (get engine t (Z.of_nat n) w2) = Normal (fromBinding x)).
Proof.
  rewrite values_captures. intros Heq Hfuel before w2.
  apply (f_equal fst) in Heq. cbn [fst] in Heq. apply Normal_inj in Heq.
  subst it. cbn [values_keys keys_size]. split; [reflexivity |]. split.
  - destruct (drain_snapshot before (objectType (results t)) fuel 0 w2)
      as (w3 & Hdrain & _); [lia | unfold before; lia |].
    exists w3. exact Hdrain.
  - intros n x Hx.
    unfold get, results_get, bind, called, modify, gets, ret, contents in *.
    cbn [fst snd table] in *. destruct (Z.ltb_spec (Z.of_nat n) 0); [lia |].
    rewrite Nat2Z.id, Hx. reflexivity.
Qed.

(** ** Delivery of notifications *)

Section Delivery.

Context {U : Type}.

Implicit Types (callback : @CollectionChangeCallback Native Host U).
Implicit Types (s : @Loop U) (changes : BindingChangeSet).

(** The constructor's callback never raises: a listener's error ends up in
    the queue of immediates. *)
Lemma notification_callback_returns t callback changes s :
  notification_callback t callback changes s
  = (Normal tt,
     {| user := snd (callback t (translate changes) (user s));
        immediates :=
          match fst (callback t (translate changes) (user s)) with
          | Normal _ => immediates s
          | Throw err => (immediates s ++ [err])%list
          end |}).
Proof.
  unfold notification_callback, try_catch, run_listener, setImmediate_throw,
    modify.
  destruct (callback t (translate changes) (user s)) as [[[] | err] u];
    reflexivity.
Qed.

(** However many listeners are registered, and whichever of them raise, a
    delivery returns normally. *)
Lemma deliver_returns t (callbacks : list (@CollectionChangeCallback Native Host U))
    changes s :
  fst (deliver ((fun callback => notification_callback t callback)
                  <$> callbacks) changes s) = Normal tt.
Proof.
  revert s. induction callbacks as [| callback rest IH]; intros s.
  - reflexivity.
  - cbn [fmap list_fmap deliver]. unfold bind at 1.
    rewrite notification_callback_returns. apply IH.
Qed.

(** C3: with two listeners registered, the first of which raises [err] on
    the change set, the delivery returns normally; the second listener has
    run on the same change set, from the state the first one left; [err] is
    in the queue of immediates, after what was queued before, and with
    nothing queued before it is what the next turn of the event loop
    throws. *)
Theorem listener_error_is_deferred t callback1 callback2 changes s err u1 :
  callback1 t (translate changes) (user s) = (Throw err, u1) ->
  let registered := addListener t callback2 (addListener t callback1 []) in
  let second := callback2 t (translate changes) u1 in
  exists s',
    deliver registered changes s = (Normal tt, s')
    /\ user s' = snd second
    /\ immediates s'
       = (immediates s ++ err :: match fst second with
                                 | Normal _ => []
                                 | Throw err2 => [err2]
                                 end)%list
    /\ (immediates s = [] ->
        exists s'', run_immediate s' = Some (err, s'')).
Proof.
  intros Hfirst registered second. unfold registered, addListener.
  cbn [app deliver]. unfold bind at 1.
  rewrite notification_callback_returns, Hfirst. cbn [fst snd].
  unfold bind at 1. rewrite notification_callback_returns.
  cbn [user immediates]. fold second. cbn [ret].
  eexists. split; [reflexivity |]. cbn [user immediates].
  split; [reflexivity |]. split.
  - destruct (fst second); [reflexivity | by rewrite <- app_assoc].
  - intros ->. unfold run_immediate. cbn [immediates app].
    destruct (fst second); eexists; reflexivity.
Qed.

End Delivery.

End Properties.

(** ** Unwinding ranges *)

Section Ranges.

Implicit Types (ranges : list IndexRange) (x lower : Z).

Example unwind_two_ranges : unwind [(0, 3); (5, 6)] = [0; 1; 2; 5].
Proof. reflexivity. Qed.

Lemma unwind_cons first last ranges :
  unwind ((first, last) :: ranges)
  = (seqZ first (last - first) ++ unwind ranges)%list.
Proof. reflexivity. Qed.

(** The indices produced are those some range covers. *)
Lemma elem_of_unwind ranges x :
  x ∈ unwind ranges
  <-> exists first last, (first, last) ∈ ranges /\ first <= x < last.
Proof.
  induction ranges as [| [a b] rest IH].
  - split; [intros H; inversion H | intros (? & ? & H & _); inversion H].
  - rewrite unwind_cons, elem_of_app, elem_of_seqZ, IH. split.
    + intros [Hx | (a' & b' & Hin & Hx)].
      * exists a, b. split; [left | lia].
      * exists a', b'. split; [by right | done].
    + intros (a' & b' & Hin & Hx). apply elem_of_cons in Hin as [[= -> ->] | Hin].
      * left. lia.
      * right. by exists a', b'.
Qed.

Lemma StronglySorted_seqZ (first : Z) (len : Z) :
  StronglySorted Z.lt (seqZ first len).
Proof.
  remember (Z.to_nat len) as k eqn:Hk. revert first len Hk.
  induction k as [| k IH]; intros first len Hk.
  - rewrite seqZ_nil by lia. constructor.
  - rewrite seqZ_cons by lia. apply StronglySorted_cons. split.
    + apply Forall_seqZ. lia.
    + apply IH. lia.
Qed.

Lemma unwind_ascending_from lower ranges :
  ascending_from lower ranges ->
  StronglySorted Z.lt (unwind ranges)
  /\ Forall (fun x => lower <= x) (unwind ranges)
  /\ Z.of_nat (List.length (unwind ranges)) = total_width ranges.
Proof.
  revert lower. induction ranges as [| [a b] rest IH]; intros lower Hasc.
  - repeat split; constructor.
  - destruct Hasc as (Hlow & Hab & Hrest).
    destruct (IH b Hrest) as (Hsorted & Hbound & Hlen).
    rewrite unwind_cons. repeat split.
    + apply StronglySorted_app_2; [| apply StronglySorted_seqZ | done].
      intros x1 x2 Hx1 Hx2. apply elem_of_seqZ in Hx1.
      rewrite Forall_forall in Hbound. specialize (Hbound x2 Hx2). lia.
    + apply Forall_app. split.
      * apply Forall_seqZ. lia.
      * eapply Forall_impl; [exact Hbound |]. simpl. lia.
    + rewrite length_app, length_seqZ, Nat2Z.inj_add, Hlen. simpl. lia.
Qed.

(** C6: for ascending, non-overlapping half-open ranges, [unwind] gives the
    covered integers in strictly ascending order, each of them exactly as
    some range covers it, as many as the widths of the ranges add up to;
    [[0,3],[5,6]] gives [0,1,2,5]. *)
Theorem unwind_ascending_ranges ranges :
  ascending_ranges ranges ->
  StronglySorted Z.lt (unwind ranges)
  /\ (forall x, x ∈ unwind ranges
        <-> exists first last, (first, last) ∈ ranges /\ first <= x < last)
  /\ Z.of_nat (List.length (unwind ranges)) = total_width ranges
  /\ unwind [(0, 3); (5, 6)] = [0; 1; 2; 5].
Proof.
  intros Hasc.
  assert (exists lower, ascending_from lower ranges) as [lower Hfrom].
  { destruct ranges as [| [a b] rest]; [by exists 0 |].
    exists a. destruct Hasc. simpl. repeat split; [lia | done | done]. }
  destruct (unwind_ascending_from lower ranges Hfrom) as (Hs & _ & Hl).
  repeat split; try done; apply elem_of_unwind.
Qed.

End Ranges.

Lemma unwind_ascending_ranges_witness :
  ascending_ranges [(0, 3); (5, 6); (6, 8)]
  /\ StronglySorted Z.lt (unwind [(0, 3); (5, 6); (6, 8)])
  /\ Z.of_nat (List.length (unwind [(0, 3); (5, 6); (6, 8)])) = 6.
Proof.
  assert (ascending_ranges [(0, 3); (5, 6); (6, 8)]) as Hasc.
  { simpl. lia. }
  split; [exact Hasc |].
  destruct (unwind_ascending_ranges _ Hasc) as (Hs & _ & Hl & _).
  split; [exact Hs | exact Hl].
Defined.

(** ** The properties on the sample collections *)

Section Witnesses.

Import Sample.

#[local] Existing Instance sample_helpers.

Lemma primitives_no_index_slots : no_index_slots primitives.
Proof.
  apply (construct_no_index_slots "Results"
           (Some (sample_realm, {| objectType := ""; view := VTable |}))).
  reflexivity.
Qed.

(** The claim of C1 as the spec words it fails on the two-element
    collection: the write at index 5 is not an ordinary assignment on the
    target, it raises. *)
Lemma write_beyond_length_counterexample :
  fst (length sample_engine primitives (world_of [10; 20])) = Normal 2
  /\ PROXY_HANDLER_set primitives (PString (index_key 5)) (VNumber 7)
       (world_of [10; 20])
     = (Throw (Error "Assigning into a Results is not support"),
        world_of [10; 20])
  /\ PROXY_HANDLER_set primitives (PString (index_key 5)) (VNumber 7)
       (world_of [10; 20])
     <> (Normal (Reflect_set primitives (PString (index_key 5)) (VNumber 7)),
         world_of [10; 20]).
Proof.
  assert (PROXY_HANDLER_set primitives (PString (index_key 5)) (VNumber 7)
            (world_of [10; 20])
          = (Throw (Error "Assigning into a Results is not support"),
             world_of [10; 20])) as Hthrow by reflexivity.
  split; [reflexivity |]. split; [exact Hthrow |].
  rewrite Hthrow. intros Heq. apply (f_equal fst) in Heq. discriminate Heq.
Qed.

Lemma write_beyond_length_reaches_set_witness :
  Z.of_nat (List.length (contents sample_engine (results primitives)
                           (world_of [10; 20]))) <= 5
  /\ PROXY_HANDLER_set primitives (PString (index_key 5)) (VNumber 7)
       (world_of [10; 20])
     = (Throw (Error "Assigning into a Results is not support"),
        world_of [10; 20]).
Proof.
  assert (Z.of_nat (List.length (contents sample_engine (results primitives)
                                   (world_of [10; 20]))) <= 5) as Hlen.
  { cbn. lia. }
  split; [exact Hlen |].
  exact (proj2 (write_beyond_length_reaches_set sample_engine primitives
                  (world_of [10; 20]) 5 (VNumber 7) Hlen)).
Defined.

Lemma indexed_read_witness :
  no_index_slots primitives
  /\ fst (get sample_engine primitives 1 (world_of [10; 20])) = Normal "20"
  /\ fst (PROXY_HANDLER_get sample_engine primitives (PString "1")
            (world_of [10; 20])) = Normal (VHost "20")
  /\ fst (PROXY_HANDLER_get sample_engine primitives (PString "2")
            (world_of [10; 20])) = Normal VUndefined
  /\ fst (PROXY_HANDLER_get sample_engine primitives (PString "-1")
            (world_of [10; 20])) = Normal VUndefined.
Proof.
  split; [exact primitives_no_index_slots |].
  pose proof (indexed_read (helpers := sample_helpers) sample_engine
                primitives (world_of [10; 20])) as Hread.
  destruct (Hread 1 primitives_no_index_slots) as [Hin _].
  destruct Hin as (x & Hx & Hget & Hproxy); [cbn; lia |].
  cbn in Hx. apply (f_equal (default 0)) in Hx. cbn in Hx. subst x.
  split; [exact Hget |]. split; [exact Hproxy |]. split.
  - destruct (Hread 2 primitives_no_index_slots) as [_ Hout].
    apply Hout. cbn. lia.
  - destruct (Hread (-1) primitives_no_index_slots) as [_ Hout].
    apply Hout. cbn. lia.
Defined.

Lemma iterator_keeps_snapshot_witness :
  exists it w1,
    values sample_engine primitives (world_of [1; 2; 3]) = (Normal it, w1)
    /\ keys_size (values_keys it) = 3
    /\ (exists w3,
          drain (helpers := sample_helpers) sample_engine 4 it
            (write_table [7; 8] w1)
          = Some (Normal ["1"; "2"; "3"], w3))
    /\ fst (get (helpers := sample_helpers) sample_engine primitives 0
              (write_table [7; 8] w1)) = Normal "7".
Proof.
  pose proof (values_captures sample_engine primitives (world_of [1; 2; 3]))
    as Hvalues.
  eexists _, _. split; [exact Hvalues |].
  assert (List.length (contents sample_engine (results primitives)
                         (world_of [1; 2; 3]%Z)) < 4)%nat as Hfuel.
  { cbn. lia. }
  destruct (iterator_keeps_snapshot (helpers := sample_helpers) sample_engine
              primitives (world_of [1; 2; 3]) _ _ [7; 8] 4 Hvalues Hfuel)
    as (Hsize & Hdrain & Hget).
  split; [exact Hsize |]. split; [exact Hdrain |].
  exact (Hget 0%nat 7 eq_refl).
Defined.

Lemma aggregates_on_empty_witness :
  fst (length sample_engine primitives (world_of [])) = Normal 0
  /\ fst (getPropertyColumnKey primitives None (world_of []))
     = Normal DEFAULT_COLUMN_KEY
  /\ fst (min sample_engine primitives None (world_of []))
     = Normal ValUndefined
  /\ fst (max sample_engine primitives None (world_of []))
     = Normal ValUndefined
  /\ fst (avg sample_engine primitives None (world_of []))
     = Normal ValUndefined
  /\ fst (sum sample_engine primitives None (world_of []))
     = Normal (ValNumber 0).
Proof.
  assert (fst (length sample_engine primitives (world_of [])) = Normal 0)
    as Hempty by reflexivity.
  assert (fst (getPropertyColumnKey primitives None (world_of []))
          = Normal DEFAULT_COLUMN_KEY) as Hkey by reflexivity.
  split; [exact Hempty |]. split; [exact Hkey |].
  exact (aggregates_on_empty sample_engine primitives (world_of []) None
           DEFAULT_COLUMN_KEY Hempty Hkey).
Defined.

Example aggregates_on_empty_persons :
  fst (min sample_engine persons (Some "age") (world_of []))
  = Normal ValUndefined
  /\ fst (sum sample_engine persons (Some "age") (world_of []))
     = Normal (ValNumber 0)
  /\ fst (sum sample_engine persons (Some "age") (world_of [4; 9]))
     = Normal (ValNumber (13 # 1)).
Proof. repeat split; vm_compute; reflexivity. Qed.

Lemma aggregate_without_name_on_objects_witness :
  classHelpers persons = Some (getClassHelpers sample_realm "Person")
  /\ min sample_engine persons None (world_of [4; 9])
     = (Throw (TypeAssertionError "a string" "name"), world_of [4; 9])
  /\ sum sample_engine persons None (world_of [4; 9])
     = (Throw (TypeAssertionError "a string" "name"), world_of [4; 9]).
Proof.
  split; [reflexivity |].
  destruct (aggregate_without_name_on_objects sample_engine persons
              (world_of [4; 9]) _ eq_refl) as (Hmin & _ & Hsum & _).
  split; [exact Hmin | exact Hsum].
Defined.

Lemma indexOf_rejects_fromIndex_witness :
  indexOf (helpers := sample_helpers) sample_engine primitives "20" (Some 0)
    (world_of [10; 20])
  = (Throw (AssertionError
              "The second fromIndex argument is not yet supported"),
     world_of [10; 20])
  /\ fst (indexOf (helpers := sample_helpers) sample_engine primitives "20"
            None (world_of [10; 20])) = Normal 1.
Proof.
  destruct (indexOf_rejects_fromIndex (helpers := sample_helpers)
              sample_engine primitives (world_of [10; 20]) "20")
    as (Hdefined & _ & _).
  split; [exact (Hdefined 0) | reflexivity].
Defined.

Lemma listener_error_is_deferred_witness :
  failing_listener primitives (translate sample_changes) (user idle)
  = (Throw (Error "listener failed"), [])
  /\ exists s',
       deliver (addListener primitives recording_listener
                  (addListener primitives failing_listener []))
         sample_changes idle = (Normal tt, s')
       /\ user s' = [translate sample_changes]
       /\ immediates s' = [Error "listener failed"]
       /\ exists s'', run_immediate s' = Some (Error "listener failed", s'').
Proof.
  split; [reflexivity |].
  destruct (listener_error_is_deferred primitives failing_listener
              recording_listener sample_changes idle
              (Error "listener failed") [] eq_refl)
    as (s' & Hdeliver & Huser & Hqueue & Hnext).
  exists s'. split; [exact Hdeliver |]. split; [exact Huser |].
  split; [exact Hqueue | exact (Hnext eq_refl)].
Defined.

Example translate_sample_changes :
  translate Sample.sample_changes
  = {| insertions := [1]; deletions := [0; 1; 2; 5];
       newModifications := [4; 5]; oldModifications := [] |}.
Proof. reflexivity. Qed.

(** The other paths of the two traps. *)
Lemma declared_keys_NoDup : NoDup (@declared_slots string).*1.
Proof. apply (bool_decide_unpack _). vm_compute. exact I. Qed.

Lemma primitives_length_slot :
  slots primitives !! PString "length" = Some (Getter "length").
Proof.
  apply elem_of_list_to_map_1; [exact declared_keys_NoDup |].
  apply list_elem_of_In. do 4 right. left. reflexivity.
Qed.

Lemma primitives_note_slot : slots primitives !! PString "note" = None.
Proof.
  apply not_elem_of_list_to_map_1. apply (bool_decide_unpack _).
  vm_compute. exact I.
Qed.

Example write_at_negative_index :
  PROXY_HANDLER_set primitives (PString "-1") (VNumber 7) (world_of [10; 20])
  = (Throw (Error "Index -1 cannot be less than zero."), world_of [10; 20]).
Proof. reflexivity. Qed.

Example write_of_named_property :
  exists target,
    PROXY_HANDLER_set primitives (PString "note") (VNumber 7)
      (world_of [10; 20]) = (Normal (true, target), world_of [10; 20])
    /\ slots target !! PString "note" = Some (Data (VNumber 7))
    /\ fst (PROXY_HANDLER_get sample_engine target (PString "note")
              (world_of [10; 20])) = Normal (VNumber 7).
Proof.
  exists (with_slots primitives
            (<[PString "note" := Data (VNumber 7)]> (slots primitives))).
  assert (slots (with_slots primitives
                   (<[PString "note" := Data (VNumber 7)]> (slots primitives)))
          !! PString "note" = Some (Data (VNumber 7))) as Hnote.
  { unfold with_slots. cbn [slots]. apply lookup_insert_eq. }
  split; [| split; [exact Hnote |]].
  - unfold PROXY_HANDLER_set, Reflect_set. cbn [parseInt].
    change (parseInt "note") with (@None Z). cbn [isNaN negb andb lt0].
    rewrite primitives_note_slot. reflexivity.
  - unfold PROXY_HANDLER_get, Reflect_has, Reflect_get. rewrite Hnote.
    reflexivity.
Qed.

Example write_of_length :
  PROXY_HANDLER_set primitives (PString "length") (VNumber 7)
    (world_of [10; 20])
  = (Normal (false, primitives), world_of [10; 20]).
Proof.
  unfold PROXY_HANDLER_set, Reflect_set.
  change (parseInt "length") with (@None Z). cbn [isNaN negb andb lt0].
  rewrite primitives_length_slot. reflexivity.
Qed.

Example read_of_length :
  fst (PROXY_HANDLER_get sample_engine primitives (PString "length")
         (world_of [10; 20]))
  = Normal (VNumber 2).
Proof.
  unfold PROXY_HANDLER_get, Reflect_has, Reflect_get.
  rewrite primitives_length_slot. reflexivity.
Qed.

Example sorted_reverse :
  (calls (snd (sorted primitives (ArgBoolean true) None (world_of [1; 2])))
   = [CallSortByNames [("self", false)]])
  /\ calls (snd (sorted primitives ArgUndefined None (world_of [1; 2])))
     = [CallSortByNames [("self", true)]].
Proof. split; reflexivity. Qed.

End Witnesses.

(** ** Further properties of the traps *)

Section Traps.

Context {Native Host Obj : Type}.
Context {helpers : @TypeHelpers Native Host Obj} (engine : @Engine Native Obj).

Implicit Types (t : @OrderedCollection Native Host) (w : @World Native).
Implicit Types (v : @Value Host) (i : Z) (name : string).

Lemma declared_keys_distinct : NoDup (@declared_slots Host).*1.
Proof. apply (bool_decide_unpack _). vm_compute. exact I. Qed.

Lemma declared_slots_lookup (key : PropertyKey) (slot : @Slot Host) :
  In (key, slot) declared_slots ->
  (list_to_map declared_slots : gmap PropertyKey Slot) !! key = Some slot.
Proof.
  intros Hin. apply elem_of_list_to_map_1; [exact declared_keys_distinct |].
  by apply list_elem_of_In.
Qed.

Lemma construct_slots name args t :
  construct name args = Normal t -> slots t = list_to_map declared_slots.
Proof.
  destruct args as [[rlm res] |]; unfold construct; [| discriminate].
  intros Heq. apply Normal_inj in Heq. subst t. reflexivity.
Qed.



(** On a target as the constructor leaves it, a write through the proxy to
    one of the getters [length], [type], [optional] or to one of the
    internal fields returns [false] and leaves the target and the world as
    they were; [length] read through the proxy is the current size. *)
Theorem readonly_names_refuse_writes cname args t w name v :
  construct cname args = Normal t ->
  In name ["length"; "type"; "optional";
           "realm"; "results"; "helpers"; "classHelpers"] ->
  PROXY_HANDLER_set t (PString name) v w = (Normal (false, t), w)
  /\ fst (PROXY_HANDLER_get engine t (PString "length") w)
     = Normal (VNumber (Z.of_nat (List.length
                                    (contents engine (results t) w)))).
Proof.
  intros Hnew Hname.
  pose proof (construct_slots _ _ _ Hnew) as Hslots.
  pose proof (construct_no_index_slots _ _ _ Hnew) as Hinv.
  assert (exists slot,
            slots t !! PString name = Some slot
            /\ ((exists n, slot = Getter n) \/ (exists n, slot = Internal n)))
    as (slot & Hl & Hkind).
  { rewrite Hslots. cbn [In] in Hname.
    destruct Hname as [<- | [<- | [<- | [<- | [<- | [<- | [<- | []]]]]]]].
    - exists (Getter "length"). split; [| left; by eexists].
      apply declared_slots_lookup. do 4 right. left. reflexivity.
    - exists (Getter "type"). split; [| left; by eexists].
      apply declared_slots_lookup. do 5 right. left. reflexivity.
    - exists (Getter "optional"). split; [| left; by eexists].
      apply declared_slots_lookup. do 6 right. left. reflexivity.
    - exists (Internal "realm"). split; [| right; by eexists].
      apply declared_slots_lookup. left. reflexivity.
    - exists (Internal "results"). split; [| right; by eexists].
      apply declared_slots_lookup. do 1 right. left. reflexivity.
    - exists (Internal "helpers"). split; [| right; by eexists].
      apply declared_slots_lookup. do 2 right. left. reflexivity.
    - exists (Internal "classHelpers"). split; [| right; by eexists].
      apply declared_slots_lookup. do 3 right. left. reflexivity. }
  split.
  - assert (parseInt name = None) as Hparse by (apply Hinv; by eexists).
    unfold PROXY_HANDLER_set, Reflect_set. rewrite Hparse, Hl.
    cbn [isNaN negb andb lt0].
    destruct Hkind as [[n ->] | [n ->]]; reflexivity.
  - unfold PROXY_HANDLER_get, Reflect_has, Reflect_get.
    assert (slots t !! PString "length" = Some (Getter "length")) as Hlen.
    { rewrite Hslots. apply declared_slots_lookup. do 4 right. left.
      reflexivity. }
    rewrite Hlen. rewrite bool_decide_eq_true_2 by (by eexists).
    unfold bind. rewrite length_contents. reflexivity.
Qed.

Lemma Reflect_has_parsed t name i :
  no_index_slots t -> parseInt name = Some i ->
  Reflect_has t (PString name) = false.
Proof.
  intros Hinv Hparse. unfold Reflect_has. apply bool_decide_eq_false.
  intros Hsome. apply Hinv in Hsome. congruence.
Qed.

Lemma PROXY_HANDLER_get_parsed t w name i :
  no_index_slots t -> parseInt name = Some i ->
  let elems := contents engine (results t) w in
  fst (PROXY_HANDLER_get engine t (PString name) w)
  = Normal (if (0 <=? i) && (i <? Z.of_nat (List.length elems))
            then match elems !! Z.to_nat i with
                 | Some x => VHost (fromBinding x)
                 | None => VUndefined
                 end
            else VUndefined).
Proof.
  intros Hinv Hparse elems. unfold PROXY_HANDLER_get.
  rewrite (Reflect_has_parsed t name i Hinv Hparse), Hparse.
  unfold isNaN, ge0. cbn [negb andb].
  destruct (Z.leb_spec 0 i); [| reflexivity].
  unfold bind at 1. rewrite length_contents. fold elems.
  destruct (Z.ltb_spec i (Z.of_nat (List.length elems))); [| reflexivity].
  cbn [andb].
  unfold get, results_get, bind, called, modify, gets, ret, contents.
  cbn [fst snd table]. destruct (Z.ltb_spec i 0); [lia |].
  unfold contents in elems. fold elems.
  destruct (lookup_lt_is_Some_2 elems (Z.to_nat i)) as [x Hx]; [lia |].
  rewrite Hx. reflexivity.
Qed.

(** Whatever string [parseInt] reads as the number [i] is a name of index
    [i] for reading: with [i] in [[0, length)] the proxy gives
    [fromBinding] of the element at [i], otherwise [undefined]. *)
Theorem read_by_any_numeric_name t w name i :
  no_index_slots t ->
  parseInt name = Some i ->
  let elems := contents engine (results t) w in
  (forall x, 0 <= i -> elems !! Z.to_nat i = Some x ->
     fst (PROXY_HANDLER_get engine t (PString name) w)
     = Normal (VHost (fromBinding x)))
  /\ (i < 0 \/ Z.of_nat (List.length elems) <= i ->
      fst (PROXY_HANDLER_get engine t (PString name) w) = Normal VUndefined).
Proof.
  intros Hinv Hparse elems.
  rewrite (PROXY_HANDLER_get_parsed t w name i Hinv Hparse). fold elems.
  split.
  - intros x Hlo Hx. pose proof (lookup_lt_Some _ _ _ Hx) as Hlt.
    destruct (Z.leb_spec 0 i); [| lia].
    destruct (Z.ltb_spec i (Z.of_nat (List.length elems))); [| lia].
    cbn [andb]. by rewrite Hx.
  - intros Hout. destruct (Z.leb_spec 0 i); [| reflexivity].
    destruct (Z.ltb_spec i (Z.of_nat (List.length elems))); [lia |].
    reflexivity.
Qed.

(** The descriptor trap only compares the parsed number with the length:
    a name that parses as a number below the length, a negative one
    included, gets the default descriptor (configurable, enumerable,
    writable); one at or above the length gets [undefined].  A negative
    name so has a descriptor although it reads as [undefined]. *)
Theorem descriptor_of_numeric_name t w name i :
  no_index_slots t ->
  parseInt name = Some i ->
  let len := Z.of_nat (List.length (contents engine (results t) w)) in
  (i < len ->
   fst (PROXY_HANDLER_getOwnPropertyDescriptor engine t (PString name) w)
   = Normal (Some DEFAULT_PROPERTY_DESCRIPTOR))
  /\ (len <= i ->
      fst (PROXY_HANDLER_getOwnPropertyDescriptor engine t (PString name) w)
      = Normal None)
  /\ (i < 0 ->
      fst (PROXY_HANDLER_getOwnPropertyDescriptor engine t (PString name) w)
      = Normal (Some DEFAULT_PROPERTY_DESCRIPTOR)
      /\ fst (PROXY_HANDLER_get engine t (PString name) w)
         = Normal VUndefined).
Proof.
  intros Hinv Hparse len.
  assert (fst (PROXY_HANDLER_getOwnPropertyDescriptor engine t
                 (PString name) w)
          = Normal (if i <? len then Some DEFAULT_PROPERTY_DESCRIPTOR
                    else None)) as Htrap.
  { unfold PROXY_HANDLER_getOwnPropertyDescriptor.
    rewrite (Reflect_has_parsed t name i Hinv Hparse), Hparse.
    unfold bind. rewrite length_contents. fold len. cbn [js_lt].
    by destruct (i <? len). }
  rewrite Htrap. split; [| split].
  - intros Hlt. by destruct (Z.ltb_spec i len); [| lia].
  - intros Hge. by destruct (Z.ltb_spec i len); [lia |].
  - intros Hneg. split.
    + destruct (Z.ltb_spec i len); [reflexivity | lia].
    + rewrite (PROXY_HANDLER_get_parsed t w name i Hinv Hparse).
      by destruct (Z.leb_spec 0 i); [lia |].
Qed.

(** Pulling a keys iterator from index [k] gives the indices from [k] up to
    its size. *)
Lemma drain_keys_from (size : Z) :
  forall (fuel : nat) (k : Z),
    0 <= k <= size ->
    (Z.to_nat (size - k) < fuel)%nat ->
    drain_keys fuel {| keys_size := size; keys_index := k |}
    = Some (seqZ k (size - k)).
Proof.
  induction fuel as [| fuel IH]; intros k Hk Hfuel; [lia |].
  cbn [drain_keys]. unfold keys_next. cbn [keys_index keys_size].
  destruct (Z.ltb_spec k size).
  - rewrite IH by lia. rewrite (seqZ_cons k) by lia. cbn.
    do 3 f_equal; lia.
  - rewrite seqZ_nil by lia. reflexivity.
Qed.

Lemma NoDup_filter_fst {A B : Type} (P : A * B -> Prop)
    `{forall x, Decision (P x)} (l : list (A * B)) :
  NoDup l.*1 -> NoDup (filter P l).*1.
Proof.
  induction l as [| [a b] l IH]; [done |].
  rewrite fmap_cons, NoDup_cons. intros [Hnotin Hnodup].
  rewrite filter_cons. destruct (decide (P (a, b))); [| by apply IH].
  rewrite fmap_cons, NoDup_cons. split; [| by apply IH].
  intros Hin. apply Hnotin.
  apply list_elem_of_fmap in Hin as ([a' b'] & -> & Hin).
  apply list_elem_of_filter in Hin as [_ Hin].
  apply list_elem_of_fmap. by exists (a', b').
Qed.

Lemma Reflect_ownKeys_slot t key :
  key ∈ Reflect_ownKeys t -> is_Some (slots t !! key).
Proof.
  unfold Reflect_ownKeys. intros Hin.
  apply list_elem_of_fmap in Hin as ([k slot] & -> & Hin).
  apply list_elem_of_filter in Hin as [_ Hin].
  apply elem_of_map_to_list in Hin. by eexists.
Qed.

(** The keys the [ownKeys] trap lists are the own keys of the target
    followed by the decimal names of [0 .. length-1] in ascending order;
    with no numeric name among the target's properties no key is listed
    twice. *)
Theorem ownKeys_lists_indices t w (fuel : nat) :
  no_index_slots t ->
  (List.length (contents engine (results t) w) < fuel)%nat ->
  let len := Z.of_nat (List.length (contents engine (results t) w)) in
  let listed :=
    (Reflect_ownKeys t
     ++ ((fun k => PString (index_key k)) <$> seqZ 0 len))%list in
  (exists w', PROXY_HANDLER_ownKeys engine fuel t w = Some (Normal listed, w'))
  /\ NoDup listed
  /\ (forall i, 0 <= i < len -> PString (index_key i) ∈ listed).
Proof.
  intros Hinv Hfuel len listed. repeat split.
  - unfold PROXY_HANDLER_ownKeys, keys, bind.
    change (results_size engine (results t) w) with (length engine t w).
    rewrite length_contents. cbn [ret]. fold len.
    rewrite (drain_keys_from len fuel 0) by lia.
    rewrite Z.sub_0_r. eexists. reflexivity.
  - apply NoDup_app. repeat split.
    + unfold Reflect_ownKeys. apply NoDup_filter_fst, NoDup_fst_map_to_list.
    + intros key Hown Hindex.
      apply list_elem_of_fmap in Hindex as (k & -> & _).
      apply Reflect_ownKeys_slot, Hinv in Hown.
      rewrite parseInt_index_key in Hown. discriminate.
    + apply NoDup_fmap_2_strong; [| apply NoDup_seqZ].
      intros a b _ _ [= Heq]. unfold index_key in Heq.
      by apply (inj pretty) in Heq.
  - intros i Hi. apply elem_of_app. right.
    apply list_elem_of_fmap. exists i. split; [reflexivity |].
    apply elem_of_seqZ. lia.
Qed.

(** The iterator of [keys()] yields [0 .. n-1] for the size [n] read when it
    was made, and no more; after the table has been emptied the keys it
    yields read as [undefined] through the proxy. *)
Theorem keys_yield_indices_of_creation t w it w' (fuel : nat) :
  keys engine t w = (Normal it, w') ->
  (List.length (contents engine (results t) w) < fuel)%nat ->
  let len := Z.of_nat (List.length (contents engine (results t) w)) in
  drain_keys fuel it = Some (seqZ 0 len)
  /\ (no_index_slots t -> view (results t) = VTable ->
      forall k, k ∈ seqZ 0 len ->
        fst (PROXY_HANDLER_get engine t (PString (index_key k))
               (write_table [] w')) = Normal VUndefined).
Proof.
  intros Heq Hfuel len. unfold keys, bind in Heq.
  change (results_size engine (results t) w) with (length engine t w) in Heq.
  rewrite length_contents in Heq. cbn [ret] in Heq.
  apply (f_equal fst) in Heq. cbn [fst] in Heq. apply Normal_inj in Heq.
  subst it. fold len. split.
  - rewrite (drain_keys_from len fuel 0) by lia. by rewrite Z.sub_0_r.
  - intros Hinv Hview k Hk. apply elem_of_seqZ in Hk.
    rewrite (PROXY_HANDLER_get_parsed t (write_table [] w') _ k Hinv
               (parseInt_index_key k)).
    unfold contents, write_table. cbn [table]. rewrite Hview.
    cbn [view_contents].
    change (Z.of_nat (List.length (@nil Native))) with 0.
    destruct (Z.leb_spec 0 k); [| reflexivity].
    destruct (Z.ltb_spec k 0); [lia | reflexivity].
Qed.




End Traps.

(** ** Further properties of the methods *)

Section Methods.

Context {Native Host Obj : Type}.
Context {helpers : @TypeHelpers Native Host Obj} (engine : @Engine Native Obj).

Implicit Types (t : @OrderedCollection Native Host) (w : @World Native).
Implicit Types (i index : Z) (name : string).

(** Pulling an iterator over a snapshot reads each remaining element once,
    in order. *)
Lemma drain_snapshot_trace (frozen : list Native) (type_name : string) :
  forall (fuel k : nat) w,
    (k <= List.length frozen)%nat ->
    (List.length frozen - k < fuel)%nat ->
    drain engine fuel
      {| values_snapshot :=
           {| objectType := type_name; view := VSnapshot frozen |};
         values_keys :=
           {| keys_size := Z.of_nat (List.length frozen);
              keys_index := Z.of_nat k |} |} w
    = Some (Normal (fromBinding <$> drop k frozen),
            {| table := table w;
               calls := (calls w
                         ++ (CallGet <$> seqZ (Z.of_nat k)
                               (Z.of_nat (List.length frozen - k))))%list |}).
Proof.
  induction fuel as [| fuel IH]; intros k w Hk Hfuel; [lia |].
  cbn [drain]. unfold values_next, keys_next.
  cbn [values_keys values_snapshot keys_index keys_size].
  destruct (Z.ltb_spec (Z.of_nat k) (Z.of_nat (List.length frozen)))
    as [Hlt | Hge].
  - destruct (lookup_lt_is_Some_2 frozen k) as [x Hx]; [lia |].
    unfold results_get, bind, called, modify, gets, ret, contents.
    cbn [view view_contents table].
    destruct (Z.ltb_spec (Z.of_nat k) 0); [lia |].
    rewrite Nat2Z.id, Hx.
    replace (Z.of_nat k + 1) with (Z.of_nat (S k)) by lia.
    rewrite IH by lia. cbn [table calls].
    rewrite (drop_S _ _ _ Hx), fmap_cons.
    rewrite (seqZ_cons (Z.of_nat k)) by lia. rewrite fmap_cons.
    rewrite <- app_assoc. cbn [app].
    do 7 f_equal; lia.
  - rewrite drop_ge by lia. rewrite seqZ_nil by lia.
    rewrite fmap_nil, app_nil_r. by destruct w.
Qed.

(** [[...this]], on which every array-like method of the facade rests,
    never raises: it gives [fromBinding] of each element the collection has
    at the call, in order, and reaches the binding for one snapshot, one
    size and one read per element, leaving the table as it was. *)
Theorem spread_materialises t w (fuel : nat) :
  (List.length (contents engine (results t) w) < fuel)%nat ->
  let elems := contents engine (results t) w in
  spread engine fuel t w
  = Some (Normal (fromBinding <$> elems),
          {| table := table w;
             calls := (calls w ++ [CallSnapshot; CallSize]
                       ++ (CallGet <$> seqZ 0 (Z.of_nat (List.length elems))))
                      %list |}).
Proof.
  intros Hfuel elems. unfold spread. rewrite values_captures. fold elems.
  rewrite (drain_snapshot_trace elems _ fuel 0) by (unfold elems; lia).
  cbn [table calls]. rewrite Nat.sub_0_r, drop_0.
  rewrite <- !app_assoc. reflexivity.
Qed.

Lemma at_Array_at t w (fuel : nat) index :
  (List.length (contents engine (results t) w) < fuel)%nat ->
  fst <$> at_ engine fuel t index w
  = Some (Normal (Array_at (fromBinding <$> contents engine (results t) w)
                    index)).
Proof.
  intros Hfuel. unfold at_, spread. rewrite values_captures.
  rewrite (drain_snapshot_trace _ _ fuel 0) by lia. reflexivity.
Qed.

(** [at(index)] counts a negative index from the end: for [index] in
    [[0, length)] it gives the element at [index], for [index] in
    [[-length, 0)] the element at [length + index], and [undefined]
    elsewhere; it never raises. *)
Theorem at_counts_from_the_end t w (fuel : nat) index :
  (List.length (contents engine (results t) w) < fuel)%nat ->
  let elems := contents engine (results t) w in
  let len := Z.of_nat (List.length elems) in
  (0 <= index < len ->
   fst <$> at_ engine fuel t index w
   = Some (Normal (fromBinding <$> elems !! Z.to_nat index)))
  /\ (- len <= index < 0 ->
      fst <$> at_ engine fuel t index w
      = Some (Normal (fromBinding <$> elems !! Z.to_nat (len + index))))
  /\ (index < - len \/ len <= index ->
      fst <$> at_ engine fuel t index w = Some (Normal None)).
Proof.
  intros Hfuel elems len. rewrite (at_Array_at t w fuel index Hfuel).
  fold elems. unfold Array_at. rewrite length_fmap. fold len.
  split; [| split].
  - intros Hin. destruct (Z.leb_spec 0 index); [| lia].
    destruct (Z.ltb_spec index 0); [lia |].
    destruct (Z.leb_spec len index); [lia |].
    cbn [orb]. by rewrite list_lookup_fmap.
  - intros Hin. destruct (Z.leb_spec 0 index); [lia |].
    destruct (Z.ltb_spec (len + index) 0); [lia |].
    destruct (Z.leb_spec len (len + index)); [lia |].
    cbn [orb]. by rewrite list_lookup_fmap.
  - intros [Hlow | Hhigh].
    + destruct (Z.leb_spec 0 index); [lia |].
      destruct (Z.ltb_spec (len + index) 0); [reflexivity | lia].
    + destruct (Z.leb_spec 0 index); [| lia].
      destruct (Z.ltb_spec index 0); [lia |].
      destruct (Z.leb_spec len index); [reflexivity | lia].
Qed.

(** When [sum] returns, it returns a number, never [undefined] and never a
    date; when [avg] returns, it returns a number or [undefined], never a
    date. *)
Theorem sum_and_avg_return_numbers t w (property : option string) :
  (forall v w', sum engine t property w = (Normal v, w') ->
                exists q, v = ValNumber q)
  /\ (forall v w', avg engine t property w = (Normal v, w') ->
                   v = ValUndefined \/ exists q, v = ValNumber q).
Proof.
  split; intros v w'; unfold sum, avg, bind;
    destruct (getPropertyColumnKey t property w) as [[column | e] w0];
    try discriminate.
  - destruct (results_aggregate engine Sum (results t) column w0)
      as [[[] | e] w1]; cbn [ret throw]; intros [= <- <-] || discriminate;
      by eexists.
  - destruct (results_aggregate engine Average (results t) column w0)
      as [[[] | e] w1]; cbn [ret throw]; intros [= <- <-] || discriminate;
      first [by left | right; by eexists].
Qed.

Lemma results_aggregate_returns kind (r : @Results Native) column w :
  exists result w1,
    results_aggregate engine kind r column w = (Normal result, w1).
Proof.
  unfold results_aggregate, bind, called, modify, gets, ret.
  eexists _, _. reflexivity.
Qed.

(** An error out of [min] or [max] is either the one column resolution
    raised, with no call made into the binding, or the type-assertion error
    on a result the method cannot classify. *)
Theorem min_and_max_errors t w (property : option string) :
  (forall e w', min engine t property w = (Throw e, w') ->
     (getPropertyColumnKey t property w = (Throw e, w) /\ w' = w)
     \/ e = TypeAssertionError
              "Timestamp, number, bigint, Float or null" "result")
  /\ (forall e w', max engine t property w = (Throw e, w') ->
        (getPropertyColumnKey t property w = (Throw e, w) /\ w' = w)
        \/ e = TypeAssertionError
                 "Timestamp, number, bigint, Float or undefined" "result").
Proof.
  split; intros e w'; unfold min, max, bind;
    pose proof (getPropertyColumnKey_world t property w) as Hw;
    destruct (getPropertyColumnKey t property w) as [[column | e0] w0];
    cbn [snd] in Hw; subst w0.
  - destruct (results_aggregate_returns Min (results t) column w)
      as (result & w1 & ->).
    destruct result; cbn [ret throw]; try discriminate.
    intros [= <- <-]. by right.
  - intros [= <- <-]. by left.
  - destruct (results_aggregate_returns Max (results t) column w)
      as (result & w1 & ->).
    destruct result; cbn [ret throw]; try discriminate.
    intros [= <- <-]. by right.
  - intros [= <- <-]. by left.
Qed.

(** On a collection without class helpers, each aggregate called with a
    non-empty property name raises the "list of primitives" error naming
    it, with no call made into the binding; an empty name counts as no
    name. *)
Theorem aggregates_refuse_names_on_primitives t w name :
  classHelpers t = None ->
  name <> "" ->
  let err := Error ("Cannot get property named '" ++ name
                    ++ "' on a list of primitives") in
  min engine t (Some name) w = (Throw err, w)
  /\ max engine t (Some name) w = (Throw err, w)
  /\ sum engine t (Some name) w = (Throw err, w)
  /\ avg engine t (Some name) w = (Throw err, w)
  /\ min engine t (Some "") w = min engine t None w
  /\ max engine t (Some "") w = max engine t None w
  /\ sum engine t (Some "") w = sum engine t None w
  /\ avg engine t (Some "") w = avg engine t None w.
Proof.
  intros Hprim Hname err.
  assert (getPropertyColumnKey t (Some name) w = (Throw err, w)) as Hkey.
  { unfold getPropertyColumnKey. rewrite Hprim.
    destruct name as [| a rest]; [done | reflexivity]. }
  assert (getPropertyColumnKey t (Some "") w = getPropertyColumnKey t None w)
    as Hempty.
  { unfold getPropertyColumnKey. by rewrite Hprim. }
  unfold min, max, sum, avg, bind. rewrite Hkey, Hempty.
  repeat split; reflexivity.
Qed.

(** The constructor decides how aggregates resolve a missing name: on
    results without an object type the default column is used, on results
    with one the call is refused, and a name the class helpers of that type
    know resolves to its column. *)
Theorem constructor_fixes_column_resolution cname rlm (res : @Results Native)
    t w :
  construct cname (Some (rlm, res)) = Normal t ->
  (objectType res = "" ->
   getPropertyColumnKey t None w = (Normal DEFAULT_COLUMN_KEY, w))
  /\ (objectType res <> "" ->
      getPropertyColumnKey t None w
      = (Throw (TypeAssertionError "a string" "name"), w)
      /\ forall name column,
           properties (getClassHelpers rlm (objectType res)) !! name
           = Some column ->
           getPropertyColumnKey t (Some name) w = (Normal column, w)).
Proof.
  unfold construct. intros Heq. apply Normal_inj in Heq. subst t.
  unfold getPropertyColumnKey, assert_string, property_columnKey, bind.
  cbn [classHelpers]. split.
  - intros Hprim. rewrite bool_decide_eq_false_2 by (by intros []).
    reflexivity.
  - intros Hobj. rewrite bool_decide_eq_true_2 by done.
    split; [reflexivity |]. intros name column Hname. cbn [ret].
    by rewrite Hname.
Qed.


(** The collection [snapshot()] returns is detached from later writes: its
    length and the element [get] returns at any index stay what this
    collection had when the snapshot was taken, whatever is written to the
    table afterwards. *)
Theorem snapshot_is_detached t w :
  exists t' w',
    snapshot engine t w = (Normal t', w')
    /\ table w' = table w
    /\ no_index_slots t'
    /\ forall (data : list Native),
         fst (length engine t' (write_table data w'))
         = fst (length engine t w)
         /\ forall i,
              fst (get engine t' i (write_table data w'))
              = fst (get engine t i w).
Proof.
  unfold snapshot, bind, results_snapshot, called, modify, gets, ret,
    new_Results, construct.
  eexists _, _. split; [reflexivity |]. split; [reflexivity |]. split.
  - eapply (construct_no_index_slots "Results" (Some (_, _))).
    unfold construct. reflexivity.
  - intros data. split; [reflexivity |]. intros i.
    unfold get, results_get, bind, called, modify, gets, ret, contents.
    cbn [results view view_contents table fst snd].
    destruct (i <? 0); [reflexivity |].
    by destruct (view_contents engine (table w) (view (results t))
                 !! Z.to_nat i).
Qed.

End Methods.

(** ** Delivery to any number of listeners *)

Section Listeners.

Context {Native Host U : Type}.

Implicit Types (t : @OrderedCollection Native Host) (s : @Loop U).

(** A delivery to any number of listeners returns normally; every listener
    has run once, in registration order, on the same change set, each from
    the state the one before left, whether or not an earlier one raised;
    the errors raised are queued in that order behind what was queued
    before. *)
Theorem deliver_runs_every_listener t
    (callbacks : list (@CollectionChangeCallback Native Host U))
    (changes : BindingChangeSet) s :
  deliver ((fun callback => notification_callback t callback) <$> callbacks)
    changes s
  = (Normal tt,
     {| user := fst (run_listeners t callbacks (translate changes) (user s));
        immediates :=
          (immediates s
           ++ snd (run_listeners t callbacks (translate changes) (user s)))
          %list |}).
Proof.
  revert s. induction callbacks as [| callback rest IH]; intros s.
  - cbn. rewrite app_nil_r. by destruct s.
  - cbn [fmap list_fmap deliver run_listeners]. unfold bind at 1.
    rewrite notification_callback_returns, IH. cbn [user immediates].
    destruct (callback t (translate changes) (user s)) as [[[] | err] u1].
    + cbn [fst snd].
      by destruct (run_listeners t rest (translate changes) u1).
    + cbn [fst snd].
      destruct (run_listeners t rest (translate changes) u1) as [u2 errs].
      cbn [fst snd]. by rewrite <- app_assoc.
Qed.

End Listeners.

(** ** The further properties on the sample collections *)

Section FurtherWitnesses.

Import Sample.

#[local] Existing Instance sample_helpers.




Lemma readonly_names_refuse_writes_witness :
  construct "Results"
    (Some (sample_realm, {| objectType := ""; view := VTable |}))
  = Normal primitives
  /\ In "length" ["length"; "type"; "optional";
                  "realm"; "results"; "helpers"; "classHelpers"]
  /\ PROXY_HANDLER_set primitives (PString "length") (VNumber 7)
       (world_of [10; 20]) = (Normal (false, primitives), world_of [10; 20])
  /\ fst (PROXY_HANDLER_get sample_engine primitives (PString "length")
            (world_of [10; 20])) = Normal (VNumber 2).
Proof.
  split; [reflexivity |]. split; [left; reflexivity |].
  exact (readonly_names_refuse_writes sample_engine "Results"
           (Some (sample_realm, {| objectType := ""; view := VTable |}))
           primitives (world_of [10; 20]) "length" (VNumber 7) eq_refl
           (or_introl eq_refl)).
Defined.

Lemma read_by_any_numeric_name_witness :
  no_index_slots primitives
  /\ parseInt "1px" = Some 1
  /\ fst (PROXY_HANDLER_get sample_engine primitives (PString "1px")
            (world_of [10; 20])) = Normal (VHost "20")
  /\ fst (PROXY_HANDLER_get sample_engine primitives (PString " +5")
            (world_of [10; 20])) = Normal VUndefined.
Proof.
  split; [exact primitives_no_index_slots |]. split; [reflexivity |]. split.
  - exact (proj1 (read_by_any_numeric_name sample_engine primitives
                    (world_of [10; 20]) "1px" 1 primitives_no_index_slots
                    eq_refl) 20 ltac:(lia) eq_refl).
  - apply (proj2 (read_by_any_numeric_name sample_engine primitives
                    (world_of [10; 20]) " +5" 5 primitives_no_index_slots
                    eq_refl)).
    right. cbn. lia.
Defined.

Lemma descriptor_of_numeric_name_witness :
  no_index_slots primitives
  /\ parseInt "-1" = Some (-1)
  /\ fst (PROXY_HANDLER_getOwnPropertyDescriptor sample_engine primitives
            (PString "-1") (world_of [10; 20]))
     = Normal (Some DEFAULT_PROPERTY_DESCRIPTOR)
  /\ fst (PROXY_HANDLER_get sample_engine primitives (PString "-1")
            (world_of [10; 20])) = Normal VUndefined
  /\ fst (PROXY_HANDLER_getOwnPropertyDescriptor sample_engine primitives
            (PString "2") (world_of [10; 20])) = Normal None.
Proof.
  split; [exact primitives_no_index_slots |]. split; [reflexivity |].
  destruct (descriptor_of_numeric_name sample_engine primitives
              (world_of [10; 20]) "-1" (-1) primitives_no_index_slots eq_refl)
    as (_ & _ & Hneg).
  destruct (Hneg ltac:(lia)) as [Hdesc Hread].
  split; [exact Hdesc |]. split; [exact Hread |].
  destruct (descriptor_of_numeric_name sample_engine primitives
              (world_of [10; 20]) "2" 2 primitives_no_index_slots eq_refl)
    as (_ & Hout & _).
  apply Hout. cbn. lia.
Defined.

Lemma ownKeys_lists_indices_witness :
  no_index_slots primitives
  /\ (List.length (contents sample_engine (results primitives)
                     (world_of [10; 20]%Z)) < 3)%nat
  /\ (exists w',
        PROXY_HANDLER_ownKeys sample_engine 3 primitives (world_of [10; 20])
        = Some (Normal (Reflect_ownKeys primitives
                        ++ [PString "0"; PString "1"])%list, w'))
  /\ NoDup (Reflect_ownKeys primitives ++ [PString "0"; PString "1"]).
Proof.
  assert (List.length (contents sample_engine (results primitives)
                         (world_of [10; 20]%Z)) < 3)%nat as Hfuel.
  { cbn. lia. }
  split; [exact primitives_no_index_slots |]. split; [exact Hfuel |].
  destruct (ownKeys_lists_indices sample_engine primitives
              (world_of [10; 20]) 3 primitives_no_index_slots Hfuel)
    as (Hkeys & Hnodup & _).
  split; [exact Hkeys | exact Hnodup].
Defined.

Lemma keys_yield_indices_of_creation_witness :
  keys sample_engine primitives (world_of [10; 20])
  = (Normal {| keys_size := 2; keys_index := 0 |},
     {| table := [10; 20]; calls := [CallSize] |})
  /\ (List.length (contents sample_engine (results primitives)
                     (world_of [10; 20]%Z)) < 3)%nat
  /\ drain_keys 3 {| keys_size := 2; keys_index := 0 |} = Some [0; 1]
  /\ fst (PROXY_HANDLER_get sample_engine primitives (PString "1")
            (write_table [] {| table := [10; 20]; calls := [CallSize] |}))
     = Normal VUndefined.
Proof.
  assert (List.length (contents sample_engine (results primitives)
                         (world_of [10; 20]%Z)) < 3)%nat as Hfuel.
  { cbn. lia. }
  split; [reflexivity |]. split; [exact Hfuel |].
  destruct (keys_yield_indices_of_creation sample_engine primitives
              (world_of [10; 20]) _ _ 3 eq_refl Hfuel) as [Hdrain Hstale].
  split; [exact Hdrain |].
  apply (Hstale primitives_no_index_slots eq_refl 1).
  apply elem_of_seqZ. cbn. lia.
Defined.

Lemma spread_materialises_witness :
  (List.length (contents sample_engine (results primitives)
                  (world_of [10; 20]%Z)) < 3)%nat
  /\ spread sample_engine 3 primitives (world_of [10; 20])
     = Some (Normal ["10"; "20"],
             {| table := [10; 20];
                calls := [CallSnapshot; CallSize; CallGet 0; CallGet 1] |}).
Proof.
  assert (List.length (contents sample_engine (results primitives)
                         (world_of [10; 20]%Z)) < 3)%nat as Hfuel.
  { cbn. lia. }
  split; [exact Hfuel |].
  exact (spread_materialises sample_engine primitives (world_of [10; 20]) 3
           Hfuel).
Defined.

Lemma at_counts_from_the_end_witness :
  (List.length (contents sample_engine (results primitives)
                  (world_of [10; 20]%Z)) < 3)%nat
  /\ fst <$> at_ sample_engine 3 primitives 0 (world_of [10; 20])
     = Some (Normal (Some "10"))
  /\ fst <$> at_ sample_engine 3 primitives (-1) (world_of [10; 20])
     = Some (Normal (Some "20"))
  /\ fst <$> at_ sample_engine 3 primitives 2 (world_of [10; 20])
     = Some (Normal None).
Proof.
  assert (List.length (contents sample_engine (results primitives)
                         (world_of [10; 20]%Z)) < 3)%nat as Hfuel.
  { cbn. lia. }
  split; [exact Hfuel |].
  pose proof (at_counts_from_the_end sample_engine primitives
                (world_of [10; 20]) 3) as Hat.
  split; [| split].
  - destruct (Hat 0 Hfuel) as (Hin & _ & _). apply Hin. cbn. lia.
  - destruct (Hat (-1) Hfuel) as (_ & Hend & _). apply Hend. cbn. lia.
  - destruct (Hat 2 Hfuel) as (_ & _ & Hout). apply Hout. right. cbn. lia.
Defined.

Lemma aggregates_refuse_names_on_primitives_witness :
  classHelpers primitives = None
  /\ "age" <> ""
  /\ min sample_engine primitives (Some "age") (world_of [10; 20])
     = (Throw (Error "Cannot get property named 'age' on a list of primitives"),
        world_of [10; 20])
  /\ sum sample_engine primitives (Some "") (world_of [10; 20])
     = sum sample_engine primitives None (world_of [10; 20]).
Proof.
  assert ("age" <> "") as Hname by discriminate.
  split; [reflexivity |]. split; [exact Hname |].
  destruct (aggregates_refuse_names_on_primitives sample_engine primitives
              (world_of [10; 20]) "age" eq_refl Hname)
    as (Hmin & _ & _ & _ & _ & _ & Hsum & _).
  split; [exact Hmin | exact Hsum].
Defined.

Lemma persons_age_column :
  properties (getClassHelpers sample_realm "Person") !! "age" = Some 1.
Proof. apply lookup_insert_eq. Qed.

Lemma constructor_fixes_column_resolution_witness :
  construct "Results"
    (Some (sample_realm, {| objectType := "Person"; view := VTable |}))
  = Normal persons
  /\ getPropertyColumnKey persons None (world_of [4; 9])
     = (Throw (TypeAssertionError "a string" "name"), world_of [4; 9])
  /\ getPropertyColumnKey persons (Some "age") (world_of [4; 9])
     = (Normal 1, world_of [4; 9]).
Proof.
  split; [reflexivity |].
  destruct (constructor_fixes_column_resolution "Results" sample_realm
              {| objectType := "Person"; view := VTable |} persons
              (world_of [4; 9]) eq_refl) as [_ Hobjects].
  destruct (Hobjects ltac:(discriminate)) as [Hnone Hnamed].
  split; [exact Hnone | exact (Hnamed "age" 1 persons_age_column)].
Defined.

End FurtherWitnesses.
